(** * League API: request handlers of [LeagueController] over a document store

    A shallow embedding of [src/services/leagueController.ts] and
    [src/services/services.ts]: the three Express handlers
    [createLeague], [getUsersFromLeague] and [updateTeamName], the service
    methods they call, and the four collection/cluster calls they reach.
    Handlers run in a small state-and-exception monad whose state holds the
    store, the chronological record of store calls, the console and the
    Express response under construction. *)

From stdpp Require Import gmap strings list fin_maps pretty.

#[local] Set Warnings "-register-all".

Open Scope string_scope.

(** ** JavaScript values

    Request bodies, route parameters, documents and query rows are untyped
    at run time.  An object is kept as the list of its own enumerable
    properties in enumeration order ([Object.keys] order); a well-formed
    object has no repeated key, reads take the first binding.  Numbers are
    only ever tested for truthiness and for [typeof] by the handlers: an
    integer stands for the number, [0] for the falsy ones. *)
Inductive value : Type :=
  | VUndefined
  | VNull
  | VBool (b : bool)
  | VNum (n : Z)
  | VStr (s : string)
  | VArr (items : list value)
  | VObj (fields : list (string * value)).

(** ** Completion of an expression or statement: a result or a thrown value *)
Inductive outcome (A : Type) : Type :=
  | Returned (a : A)
  | Thrown (err : value).
Arguments Returned {A} a.
Arguments Thrown {A} err.

Definition obind {A B} (m : outcome A) (k : A -> outcome B) : outcome B :=
  match m with
  | Returned a => k a
  | Thrown e => Thrown e
  end.

Declare Scope js_scope.
Delimit Scope js_scope with js.
Notation "'let?' x := m 'in' k" := (obind m (fun x => k))
  (at level 10, x name, m at level 200, k at level 200) : js_scope.

(** [arr.map(f)] on the elements, left to right, stopping at the first throw. *)
Fixpoint mapO {A B} (f : A -> outcome B) (l : list A) : outcome (list B) :=
  match l with
  | [] => Returned []
  | x :: xs =>
      match f x with
      | Thrown e => Thrown e
      | Returned y =>
          match mapO f xs with
          | Thrown e => Thrown e
          | Returned ys => Returned (y :: ys)
          end
      end
  end.

(** The value thrown by the engine on a property access on [null] or
    [undefined], on calling a missing method, and on a property write to a
    primitive in strict code.  Only its class is kept. *)
Definition type_error : value := VObj [("name", VStr "TypeError")].

(** [!!v]: the falsy values are [undefined], [null], [false], [0] and [""]. *)
Definition truthy (v : value) : bool :=
  match v with
  | VUndefined | VNull => false
  | VBool b => b
  | VNum n => negb (n =? 0)%Z
  | VStr s => negb (String.eqb s "")
  | VArr _ | VObj _ => true
  end.

(** [!v] *)
Definition js_not (v : value) : bool := negb (truthy v).

(** [a || b] *)
Definition js_or (a b : value) : value := if truthy a then a else b.

(** The truth of [a || b] and of [a && b] when the operands may throw:
    the right operand is evaluated only if the left one did not decide. *)
Definition lazy_or (a b : outcome bool) : outcome bool :=
  match a with
  | Returned true => Returned true
  | Returned false => b
  | Thrown e => Thrown e
  end.

Definition lazy_and (a b : outcome bool) : outcome bool :=
  match a with
  | Returned true => b
  | Returned false => Returned false
  | Thrown e => Thrown e
  end.

Definition omap {A B} (f : A -> B) (o : outcome A) : outcome B :=
  match o with
  | Returned a => Returned (f a)
  | Thrown e => Thrown e
  end.

Definition typeof (v : value) : string :=
  match v with
  | VUndefined => "undefined"
  | VNull | VArr _ | VObj _ => "object"
  | VBool _ => "boolean"
  | VNum _ => "number"
  | VStr _ => "string"
  end.

Definition nullish (v : value) : bool :=
  match v with
  | VUndefined | VNull => true
  | _ => false
  end.

(** Own-property lookup in an object's property list. *)
Fixpoint lookup_field (k : string) (fields : list (string * value)) : option value :=
  match fields with
  | [] => None
  | (k', v) :: rest => if String.eqb k k' then Some v else lookup_field k rest
  end.

(** The value found under name [k] in [v], for the property names the
    handlers read ([body], [params], [id], [name], [description],
    [adminId], [leagueId], [teamId], [rows], [content], [usersTeams]): none
    of them is defined on arrays or on the wrappers of primitives, so only
    an object can answer, with its own field or [undefined]. *)
Definition read_field (v : value) (k : string) : value :=
  match v with
  | VObj fields => default VUndefined (lookup_field k fields)
  | _ => VUndefined
  end.

(** [v.k]: the read throws on [null] and [undefined]. *)
Definition prop (v : value) (k : string) : outcome value :=
  if nullish v then Thrown type_error else Returned (read_field v k).

(** Write of a property in an object's property list: an existing key keeps
    its place, a new (non-index) key goes last. *)
Fixpoint set_field (k : string) (v : value) (fields : list (string * value))
  : list (string * value) :=
  match fields with
  | [] => [(k, v)]
  | (k', v') :: rest =>
      if String.eqb k k' then (k', v) :: rest else (k', v') :: set_field k v rest
  end.

(** [target.k = v] in strict code (module code is strict), for a name [k]
    that is not an index: primitives throw, as do [null] and [undefined].
    A named property put on an array is not part of the array's JSON text,
    the form in which a document reaches the store, so the array is kept as
    it is. *)
Definition assign_prop (target : value) (k : string) (v : value) : outcome value :=
  match target with
  | VObj fields => Returned (VObj (set_field k v fields))
  | VArr items => Returned (VArr items)
  | _ => Thrown type_error
  end.

(** The one-character strings of a string, in order. *)
Fixpoint chars (s : string) : list value :=
  match s with
  | EmptyString => []
  | String c rest => VStr (String c EmptyString) :: chars rest
  end.

Definition index_keys (n : nat) : list string := map pretty (seq 0 n).

(** [Object.keys(v)] *)
Definition Object_keys (v : value) : outcome (list string) :=
  match v with
  | VUndefined | VNull => Thrown type_error
  | VObj fields => Returned (map fst fields)
  | VArr items => Returned (index_keys (length items))
  | VStr s => Returned (index_keys (String.length s))
  | _ => Returned []
  end.

(** [Object.values(v)] *)
Definition Object_values (v : value) : outcome (list value) :=
  match v with
  | VUndefined | VNull => Thrown type_error
  | VObj fields => Returned (map snd fields)
  | VArr items => Returned items
  | VStr s => Returned (chars s)
  | _ => Returned []
  end.

(** [v[0]] *)
Definition first_element (v : value) : outcome value :=
  match v with
  | VUndefined | VNull => Thrown type_error
  | VArr items => Returned (hd VUndefined items)
  | VStr s => Returned (hd VUndefined (chars s))
  | VObj fields => Returned (read_field v "0")
  | _ => Returned VUndefined
  end.

(** [v.map(f)]: only arrays have the method. *)
Definition array_map (f : value -> outcome value) (v : value) : outcome (list value) :=
  match v with
  | VArr items => mapO f items
  | _ => Thrown type_error
  end.

(** [arr.flat()]: one level of nested arrays is spliced in. *)
Definition flat (l : list value) : list value :=
  concat (map (fun v => match v with VArr items => items | _ => [v] end) l).

(** ** The Express response, the store calls and the handler monad *)

(** What [res.status(c)] and [res.json(b)] leave behind: the status code
    (200 until set) and the body handed to [json]. *)
Record response : Type := mkResponse {
  statusCode : nat;
  body : option value;
}.

Definition fresh_response : response := mkResponse 200 None.

(** The four calls on the couchbase collection and cluster. *)
Inductive call : Type :=
  | CInsert (key data : value)
  | CGet (key : value)
  | CReplace (key updatedDocument : value)
  | CQuery (statement options : value).

(** A call together with how it completed. *)
Definition event : Type := call * outcome value.

Definition threw (ev : event) : bool :=
  match ev.2 with
  | Thrown _ => true
  | Returned _ => false
  end.

(** The document store client ([Collection] and [Cluster] of the couchbase
    SDK) is a collaborator of the controller: any implementation over any
    state, each call either returning a value or throwing one. *)
Class DocumentStore (S : Type) : Type := {
  collection_insert : value -> value -> S -> outcome value * S;
  collection_get : value -> S -> outcome value * S;
  collection_replace : value -> value -> S -> outcome value * S;
  cluster_query : value -> value -> S -> outcome value * S;
}.

Definition dispatch {S} `{DocumentStore S} (c : call) : S -> outcome value * S :=
  match c with
  | CInsert key data => collection_insert key data
  | CGet key => collection_get key
  | CReplace key doc => collection_replace key doc
  | CQuery statement options => cluster_query statement options
  end.

(** What one request sees and leaves: the store, the store calls made so
    far (oldest first), the lines written with [console.log], and [res]. *)
Record world (S : Type) : Type := mkWorld {
  store : S;
  trace : list event;
  console : list (string * value);
  res : response;
}.
Arguments mkWorld {S} _ _ _ _.
Arguments store {S} _.
Arguments trace {S} _.
Arguments console {S} _.
Arguments res {S} _.

Definition init_world {S} (s : S) : world S := mkWorld s [] [] fresh_response.

Definition M (S A : Type) : Type := world S -> outcome A * world S.

Definition ret {S A} (a : A) : M S A := fun w => (Returned a, w).

Definition bind {S A B} (m : M S A) (k : A -> M S B) : M S B :=
  fun w =>
    match m w with
    | (Returned a, w') => k a w'
    | (Thrown e, w') => (Thrown e, w')
    end.

(** A throwing expression evaluated inside a handler. *)
Definition lift {S A} (o : outcome A) : M S A := fun w => (o, w).

(** [try { body } catch (err) { handler }] *)
Definition try_catch {S A} (body : M S A) (handler : value -> M S A) : M S A :=
  fun w =>
    match body w with
    | (Returned a, w') => (Returned a, w')
    | (Thrown e, w') => handler e w'
    end.

Notation "'let*' x := m 'in' k" := (bind m (fun x => k))
  (at level 10, x name, m at level 200, k at level 200) : js_scope.
Notation "m ;; k" := (bind m (fun _ => k))
  (at level 100, k at level 200, right associativity) : js_scope.

Open Scope js_scope.

(** [res.status(code)] *)
Definition res_status {S} (code : nat) : M S unit :=
  fun w => (Returned tt,
            mkWorld (store w) (trace w) (console w) (mkResponse code (body (res w)))).

(** [res.json(b)] *)
Definition res_json {S} (b : value) : M S unit :=
  fun w => (Returned tt,
            mkWorld (store w) (trace w) (console w) (mkResponse (statusCode (res w)) (Some b))).

(** [console.log(label, err)] *)
Definition console_log {S} (label : string) (err : value) : M S unit :=
  fun w => (Returned tt,
            mkWorld (store w) (trace w) (console w ++ [(label, err)]) (res w)).

(** One awaited call on the collaborator, recorded with its completion. *)
Definition perform {S} `{DocumentStore S} (c : call) : M S value :=
  fun w =>
    let '(r, s') := dispatch c (store w) in
    (r, mkWorld s' (trace w ++ [(c, r)]) (console w) (res w)).

(** [{ error: msg }] and [{ message: msg }] *)
Definition error_body (msg : string) : value := VObj [("error", VStr msg)].
Definition message_body (msg : string) : value := VObj [("message", VStr msg)].

Definition dquote : string := String (Ascii.ascii_of_nat 34) EmptyString.

(** The N1QL statement of [toGetUsersFromLeague]. *)
Definition users_query : string :=
  "SELECT usersTeams FROM `mpg` WHERE id = $leagueId AND type = "
    ++ dquote ++ "mpg_league" ++ dquote.

(** [typeof v === 'string'] *)
Definition is_string (v : value) : bool := String.eqb (typeof v) "string".

Section Controller.
Context {S : Type} `{DocumentStore S}.

(** *** [LeagueController.insert], [get], [replace], [query] *)
Definition insert (id data : value) : M S value :=
  let* result := perform (CInsert id data) in
  ret result.

Definition get (key : value) : M S value :=
  let* result := perform (CGet key) in
  ret result.

Definition replace (key updatedDocument : value) : M S value :=
  perform (CReplace key updatedDocument) ;;
  ret VUndefined.

Definition query (statement options : value) : M S value :=
  let* result := perform (CQuery statement options) in
  ret result.

(** *** [LeagueService] *)
Definition league_document (id name description adminId : value) : value :=
  VObj [("id", id);
        ("type", VStr "mpg_league");
        ("adminId", adminId);
        ("name", name);
        ("description", description)].

Definition toCreateLeague (id name description adminId : value) : M S value :=
  let league := league_document id name description adminId in
  let* result := insert id league in
  ret result.

Definition toGetUsersFromLeague (options : value) : M S value :=
  let* result := query (VStr users_query) options in
  ret result.

Definition toGetTeam (teamId : value) : M S value :=
  let* result := get teamId in
  ret result.

Definition toUpdateTeam (teamId updatedDocument : value) : M S value :=
  replace teamId updatedDocument ;;
  ret VUndefined.

(** *** [LeagueController.createLeague] *)
Definition create_failure_message : string := "An error occured whild creating the league".

Definition createLeague (req : value) : M S unit :=
  try_catch
    (let* reqBody := lift (prop req "body") in
     if js_not reqBody then
       res_status 400 ;; res_json (error_body "Request body is missing")
     else
       let* id := lift (prop reqBody "id") in
       let* name := lift (prop reqBody "name") in
       let* description := lift (prop reqBody "description") in
       let* adminId := lift (prop reqBody "adminId") in
       if js_not (js_or (js_or (js_or id name) description) adminId) then
         res_status 400 ;; res_json (error_body "Missing required properties")
       else if negb (is_string id) || negb (is_string name)
               || negb (is_string description) || negb (is_string adminId) then
         res_status 400 ;; res_json (error_body "Invalid data type for properties")
       else
         let* result := toCreateLeague id name description adminId in
         res_json result)
    (fun err =>
       console_log "Error occured while creating league:" err ;;
       res_status 500 ;; res_json (error_body create_failure_message)).

(** *** [LeagueController.getUsersFromLeague] *)
Definition list_failure_message : string :=
  "Error occured while retrieving users from a league".

(** [!req || !req.params || !req.params.leagueId] *)
Definition params_missing (req : value) : outcome bool :=
  lazy_or (Returned (js_not req))
    (lazy_or (omap js_not (prop req "params"))
             (let? params := prop req "params" in
              omap js_not (prop params "leagueId"))).

(** [result.rows && result.rows[0] && Object.keys(result.rows[0]).length > 0] *)
Definition has_first_row (result : value) : outcome bool :=
  lazy_and (omap truthy (prop result "rows"))
    (lazy_and (let? rows := prop result "rows" in
               omap truthy (first_element rows))
              (let? rows := prop result "rows" in
               let? row0 := first_element rows in
               let? keys := Object_keys row0 in
               Returned (Nat.ltb 0 (length keys)))).

Definition getUsersFromLeague (req : value) : M S unit :=
  try_catch
    (let* missing := lift (params_missing req) in
     if missing then
       res_status 400 ;; res_json (error_body "Request params is missing")
     else
       let* params := lift (prop req "params") in
       let* leagueId := lift (prop params "leagueId") in
       let options := VObj [("parameters", VObj [("leagueId", leagueId)])] in
       let* result := toGetUsersFromLeague options in
       let* found := lift (has_first_row result) in
       if found then
         let* rows := lift (prop result "rows") in
         let* projected := lift (array_map (fun row => prop row "usersTeams") rows) in
         let userTeams := flat projected in
         let* names := lift (Object_values (hd VUndefined userTeams)) in
         let users := map (fun name => VObj [("name", name)]) names in
         res_status 200 ;; res_json (VObj [("users", VArr users)])
       else
         res_status 204 ;; res_json (VObj [("users", VArr [])]))
    (fun err =>
       console_log "Error occured while retrieving users from a league:" err ;;
       res_status 500 ;; res_json (error_body list_failure_message)).

(** *** [LeagueController.updateTeamName] *)
Definition update_failure_message : string := "An error occured while updating team".

(** [!req.body || !req.params] *)
Definition body_or_params_missing (req : value) : outcome bool :=
  lazy_or (omap js_not (prop req "body")) (omap js_not (prop req "params")).

(** [!result || !result.content] *)
Definition team_missing (result : value) : outcome bool :=
  lazy_or (Returned (js_not result)) (omap js_not (prop result "content")).

Definition updateTeamName (req : value) : M S unit :=
  try_catch
    (let* missing := lift (body_or_params_missing req) in
     if missing then
       res_status 400 ;; res_json (error_body "Request body or request params is undefined")
     else
       let* reqParams := lift (prop req "params") in
       let* teamId := lift (prop reqParams "teamId") in
       let* reqBody := lift (prop req "body") in
       let* name := lift (prop reqBody "name") in
       if js_not teamId || js_not name then
         res_status 400 ;; res_json (error_body "teamId and name are required")
       else if negb (is_string teamId) || negb (is_string name) then
         res_status 400 ;; res_json (error_body "Invalid data type for properties")
       else
         let* result := toGetTeam teamId in
         let* notFound := lift (team_missing result) in
         if notFound then
           res_status 404 ;; res_json (error_body "Team not found")
         else
           let* content := lift (prop result "content") in
           let* team := lift (assign_prop content "name" name) in
           toUpdateTeam teamId team ;;
           res_status 200 ;; res_json (message_body "Team name updated successfully"))
    (fun err =>
       console_log "An error occured while updating team: " err ;;
       res_status 500 ;; res_json (error_body update_failure_message)).

End Controller.

(** The three handlers behind the routes of [routes.ts]. *)
Inductive handler : Type :=
  | CreateLeague      (* POST /leagues *)
  | GetUsersFromLeague (* GET /leagues/:leagueId/users *)
  | UpdateTeamName.   (* PATCH /teams/:teamId *)

Definition run_handler {S} `{DocumentStore S} (h : handler) (req : value) : M S unit :=
  match h with
  | CreateLeague => createLeague req
  | GetUsersFromLeague => getUsersFromLeague req
  | UpdateTeamName => updateTeamName req
  end.

(** The message each handler sends with status 500. *)
Definition failure_message (h : handler) : string :=
  match h with
  | CreateLeague => create_failure_message
  | GetUsersFromLeague => list_failure_message
  | UpdateTeamName => update_failure_message
  end.

(** What a handler leaves for a request served on store state [s]. *)
Definition serve {S} `{DocumentStore S} (h : handler) (req : value) (s : S)
  : outcome unit * world S :=
  run_handler h req (init_world s).

(** A request as Express hands it over, reduced to what the handlers read. *)
Definition request (reqParams reqBody : value) : value :=
  VObj [("params", reqParams); ("body", reqBody)].

(** ** A reference document store *)

Definition store_error (name : string) : value := VObj [("name", VStr name)].
Definition document_exists : value := store_error "DocumentExistsError".
Definition document_not_found : value := store_error "DocumentNotFoundError".
Definition invalid_argument : value := store_error "InvalidArgumentError".
Definition parsing_failure : value := store_error "ParsingFailureError".

(** The acknowledgment of a mutation; its shape is the store's own. *)
Definition mutation_ack : value := VObj [("cas", VNum 1)].

(** [string_is s v]: [v] is the string [s]. *)
Definition string_is (s : string) (v : value) : bool :=
  match v with
  | VStr t => String.eqb s t
  | _ => false
  end.

(** The row [SELECT usersTeams] yields for a document: the field when the
    document has it, an empty object otherwise. *)
Definition project_usersTeams (doc : value) : value :=
  match doc with
  | VObj fields =>
      match lookup_field "usersTeams" fields with
      | Some v => VObj [("usersTeams", v)]
      | None => VObj []
      end
  | _ => VObj []
  end.

(** [WHERE id = $leagueId AND type = "mpg_league"] *)
Definition is_league (leagueId : string) (doc : value) : bool :=
  match doc with
  | VObj fields =>
      string_is leagueId (default VUndefined (lookup_field "id" fields))
      && string_is "mpg_league" (default VUndefined (lookup_field "type" fields))
  | _ => false
  end.

Definition league_parameter (options : value) : option string :=
  match prop options "parameters" with
  | Returned parameters =>
      match prop parameters "leagueId" with
      | Returned (VStr leagueId) => Some leagueId
      | _ => None
      end
  | Thrown _ => None
  end.

(** Modelled from the spec: the document store client is the couchbase SDK,
    which is not part of the repository.  Documents are kept by string key;
    [insert] is insert-if-absent and answers an acknowledgment, [get]
    answers [{content}], [replace] overwrites the whole document of an
    existing key; a duplicate-key insert, a missing-key get or replace and a
    statement other than the users query throw. *)
#[export] Instance kv_store : DocumentStore (gmap string value) := {
  collection_insert key data db :=
    match key with
    | VStr k =>
        match db !! k with
        | Some _ => (Thrown document_exists, db)
        | None => (Returned mutation_ack, <[k := data]> db)
        end
    | _ => (Thrown invalid_argument, db)
    end;
  collection_get key db :=
    match key with
    | VStr k =>
        match db !! k with
        | Some doc => (Returned (VObj [("content", doc)]), db)
        | None => (Thrown document_not_found, db)
        end
    | _ => (Thrown invalid_argument, db)
    end;
  collection_replace key doc db :=
    match key with
    | VStr k =>
        match db !! k with
        | Some _ => (Returned mutation_ack, <[k := doc]> db)
        | None => (Thrown document_not_found, db)
        end
    | _ => (Thrown invalid_argument, db)
    end;
  cluster_query statement options db :=
    if string_is users_query statement then
      match league_parameter options with
      | Some leagueId =>
          let hits := filter (fun kd => is_league leagueId kd.2 = true) (map_to_list db) in
          (Returned (VObj [("rows", VArr (map (fun kd => project_usersTeams kd.2) hits))]), db)
      | None => (Returned (VObj [("rows", VArr [])]), db)
      end
    else (Thrown parsing_failure, db);
}.

(** ** Sample data *)

Definition alice_bob : list (string * value) := [("u1", VStr "Alice"); ("u2", VStr "Bob")].

Definition sample_league : value :=
  VObj [("id", VStr "l1"); ("type", VStr "mpg_league"); ("adminId", VStr "a1");
        ("name", VStr "Ligue 1"); ("description", VStr "first");
        ("usersTeams", VObj alice_bob)].

Definition sample_team : value :=
  VObj [("id", VStr "t1"); ("type", VStr "mpg_team"); ("name", VStr "OldName");
        ("budget", VNum 500)].

Definition sample_db : gmap string value :=
  <["l1" := sample_league]> (<["t1" := sample_team]> ∅).

(** A second document carrying the league id ["l1"]; a league document
    without [usersTeams] and a later one with the same id; a league whose
    [usersTeams] is empty. *)
Definition shadow_league : value :=
  VObj [("id", VStr "l1"); ("type", VStr "mpg_league");
        ("usersTeams", VObj [("u3", VStr "Carol")])].

Definition bare_league : value :=
  VObj [("id", VStr "l0"); ("type", VStr "mpg_league")].

Definition late_league : value :=
  VObj [("id", VStr "l0"); ("type", VStr "mpg_league");
        ("usersTeams", VObj [("u7", VStr "Dan")])].

Definition empty_teams_league : value :=
  VObj [("id", VStr "l9"); ("type", VStr "mpg_league"); ("usersTeams", VObj [])].

Definition crowded_db : gmap string value :=
  <["l2" := shadow_league]>
    (<["l0" := bare_league]>
       (<["p0" := late_league]> (<["l9" := empty_teams_league]> sample_db))).

Definition league_request (leagueId : string) : value :=
  request (VObj [("leagueId", VStr leagueId)]) VUndefined.

Definition team_request (teamId name : string) : value :=
  request (VObj [("teamId", VStr teamId)]) (VObj [("name", VStr name)]).

(** The fields a create-league body must carry. *)
Definition required_fields : list string := ["id"; "name"; "description"; "adminId"].

Definition is_array (v : value) : bool :=
  match v with
  | VArr _ => true
  | _ => false
  end.

(** [{ name }] *)
Definition user_of (name : value) : value := VObj [("name", name)].

(** The handler has answered [code] with [body]. *)
Definition answered {S} (s : S) (calls : list event) (logged : list (string * value))
    (code : nat) (b : value) : outcome unit * world S :=
  (Returned tt, mkWorld s calls logged (mkResponse code (Some b))).

(** The catch block of [updateTeamName] has run on [err]. *)
Definition update_failed {S} (s : S) (calls : list event) (err : value)
  : outcome unit * world S :=
  answered s calls [("An error occured while updating team: ", err)] 500
    (error_body update_failure_message).

(** [quiet m]: when [m] completes normally, no store call it made threw. *)
Definition quiet {S A} (m : M S A) : Prop :=
  forall w,
    match m w with
    | (Returned _, w') => existsb threw (trace w') = existsb threw (trace w)
    | (Thrown _, _) => True
    end.

Create HintDb quiet.

(** The label each handler's catch block gives [console.log]. *)
Definition log_label (h : handler) : string :=
  match h with
  | CreateLeague => "Error occured while creating league:"
  | GetUsersFromLeague => "Error occured while retrieving users from a league:"
  | UpdateTeamName => "An error occured while updating team: "
  end.

(** The catch block of handler [h] has run on [err]. *)
Definition handler_failed {S} (h : handler) (s : S) (calls : list event) (err : value)
  : outcome unit * world S :=
  answered s calls [(log_label h, err)] 500 (error_body (failure_message h)).

(** The status codes each handler sets ([res.json] alone leaves 200). *)
Definition status_codes (h : handler) : list nat :=
  match h with
  | CreateLeague => [200; 400; 500]
  | GetUsersFromLeague => [200; 204; 400; 500]
  | UpdateTeamName => [200; 400; 404; 500]
  end.

(** The users computed in the "found" branch of [getUsersFromLeague]:
    [Object.values(result.rows.map((row) => row.usersTeams).flat()[0])
       .map(name => ({ name }))]. *)
Definition users_of (result : value) : outcome (list value) :=
  let? rows := prop result "rows" in
  let? projected := array_map (fun row => prop row "usersTeams") rows in
  let? names := Object_values (hd VUndefined (flat projected)) in
  Returned (map user_of names).

(** The four fields of a create-league body, as the handler destructures
    them. *)
Definition league_fields (reqBody : value) : list value :=
  map (read_field reqBody) required_fields.

(** The options [getUsersFromLeague] hands to the query. *)
Definition league_options (leagueId : value) : value :=
  VObj [("parameters", VObj [("leagueId", leagueId)])].

(** The ways a handler can have answered: the codes it may set, with a
    body; a call that threw, if any, is the last call and its thrown value
    is what the console got. *)
Definition well_answered {S} (h : handler) (served : outcome unit * world S) : Prop :=
  let w := served.2 in
  In (statusCode (res w)) (status_codes h)
  /\ is_Some (body (res w))
  /\ (existsb threw (trace w) = true ->
      exists c err, last (trace w) = Some (c, Thrown err)
                    /\ console w = [(log_label h, err)])
  /\ (statusCode (res w) = 500 <-> console w <> []).

(** A scripted store, as a test double: every call completes the way the
    script says and leaves the script as it is. *)
Definition scripted : DocumentStore (outcome value) := {|
  collection_insert _ _ script := (script, script);
  collection_get _ script := (script, script);
  collection_replace _ _ script := (script, script);
  cluster_query _ _ script := (script, script);
|}.

(** Documents for the edge cases of the rows: a league whose [usersTeams]
    is [null], and two documents with the league id ["x1"], the first with
    an empty array for [usersTeams]. *)
Definition null_teams_league : value :=
  VObj [("id", VStr "l5"); ("type", VStr "mpg_league"); ("usersTeams", VNull)].

Definition array_teams_league : value :=
  VObj [("id", VStr "x1"); ("type", VStr "mpg_league"); ("usersTeams", VArr [])].

Definition second_x1_league : value :=
  VObj [("id", VStr "x1"); ("type", VStr "mpg_league");
        ("usersTeams", VObj [("u8", VStr "Eve")])].

Definition edge_db : gmap string value :=
  <["l5" := null_teams_league]>
    (<["l1" := array_teams_league]> (<["l2" := second_x1_league]> ∅)).

(** ** Properties of the value operations *)

Lemma prop_not_nullish v k : nullish v = false -> prop v k = Returned (read_field v k).
Proof. by destruct v. Qed.

Lemma truthy_not_nullish v : truthy v = true -> nullish v = false.
Proof. by destruct v. Qed.

Lemma prop_truthy v k : truthy v = true -> prop v k = Returned (read_field v k).
Proof. intros Hv. by apply prop_not_nullish, truthy_not_nullish. Qed.

Lemma prop_returned_truthy v k x :
  prop v k = Returned x -> truthy x = true -> exists fields, v = VObj fields.
Proof. destruct v; simpl; intros [= <-] Hx; try discriminate. by eexists. Qed.

Lemma truthy_VStr s : truthy (VStr s) = true <-> s <> "".
Proof.
  simpl. destruct (String.eqb_spec s ""); simpl; split; intros; congruence.
Qed.

Lemma is_string_VStr s : is_string (VStr s) = true.
Proof. reflexivity. Qed.

Lemma js_or_truthy a b : truthy a = true -> js_or a b = a.
Proof. unfold js_or. by intros ->. Qed.

Lemma js_not_truthy v : truthy v = true -> js_not v = false.
Proof. unfold js_not. by intros ->. Qed.

Lemma js_not_false v : js_not v = false -> truthy v = true.
Proof. unfold js_not. by destruct (truthy v). Qed.

Lemma is_string_inv v : is_string v = true -> exists s, v = VStr s.
Proof. destruct v; try discriminate. by eexists. Qed.

Lemma lookup_field_set_field_eq k v fields :
  lookup_field k (set_field k v fields) = Some v.
Proof.
  induction fields as [|[k' v'] rest IH]; simpl.
  - by rewrite String.eqb_refl.
  - destruct (String.eqb k k') eqn:E; simpl; rewrite E; [done | apply IH].
Qed.

Lemma lookup_field_set_field_ne k k' v fields :
  k' <> k -> lookup_field k' (set_field k v fields) = lookup_field k' fields.
Proof.
  intros Hne. induction fields as [|[k0 v0] rest IH]; simpl.
  - by apply String.eqb_neq in Hne as ->.
  - destruct (String.eqb k k0) eqn:E; simpl.
    + apply String.eqb_eq in E as <-. by apply String.eqb_neq in Hne as ->.
    + by rewrite IH.
Qed.

Lemma set_field_idem k v fields :
  set_field k v (set_field k v fields) = set_field k v fields.
Proof.
  induction fields as [|[k' v'] rest IH]; simpl.
  - by rewrite String.eqb_refl.
  - destruct (String.eqb k k') eqn:E; simpl; rewrite E; [done | by rewrite IH].
Qed.

(** A write keeps every key in place; a new key is added last. *)
Lemma set_field_keys k v fields :
  map fst (set_field k v fields)
  = match lookup_field k fields with
    | Some _ => map fst fields
    | None => (map fst fields ++ [k])%list
    end.
Proof.
  induction fields as [|[k' v'] rest IH]; simpl; [done|].
  destruct (String.eqb k k') eqn:E; simpl; [done|].
  rewrite IH. by destruct (lookup_field k rest).
Qed.

Lemma assign_prop_truthy target k v team :
  assign_prop target k v = Returned team -> truthy team = true.
Proof. destruct target; simpl; intros [= <-]; done. Qed.

Lemma assign_prop_idem target k v team :
  assign_prop target k v = Returned team -> assign_prop team k v = Returned team.
Proof.
  destruct target; simpl; intros [= <-]; simpl; [done|].
  by rewrite set_field_idem.
Qed.

Lemma mapO_not_nullish k (rows : list value) :
  Forall (fun row => nullish row = false) rows ->
  mapO (fun row => prop row k) rows = Returned (map (fun row => read_field row k) rows).
Proof.
  induction 1 as [|row rest Hrow _ IH]; simpl; [done|].
  by rewrite (prop_not_nullish _ _ Hrow), IH.
Qed.

(** ** Create league *)

Ltac unfold_handler :=
  unfold serve, run_handler, createLeague, getUsersFromLeague, updateTeamName,
    toCreateLeague, toGetUsersFromLeague, toGetTeam, toUpdateTeam,
    insert, get, replace, query, perform, try_catch, bind, lift, ret,
    res_status, res_json, console_log, init_world.

(** C7: a create-league request that lacks one of [id], [name],
    [description], [adminId] is answered 400 with an error body; no store
    call is made and the store is left as it was. *)
Theorem createLeague_missing_field_400 {S} `{DocumentStore S}
    (s : S) (req reqBody : value) (k : string) :
  prop req "body" = Returned reqBody ->
  k ∈ required_fields ->
  read_field reqBody k = VUndefined ->
  exists msg,
    serve CreateLeague req s
    = (Returned tt, mkWorld s [] [] (mkResponse 400 (Some (error_body msg)))).
Proof.
  intros Hbody Hk Habsent. unfold_handler. rewrite Hbody.
  destruct (js_not reqBody) eqn:Ebody; [by eexists|].
  apply js_not_false in Ebody as Ht.
  rewrite !(prop_truthy _ _ Ht).
  destruct (js_not (js_or _ _)); [by eexists|].
  assert (negb (is_string (read_field reqBody "id"))
          || negb (is_string (read_field reqBody "name"))
          || negb (is_string (read_field reqBody "description"))
          || negb (is_string (read_field reqBody "adminId")) = true) as ->.
  { unfold required_fields in Hk.
    repeat (apply elem_of_cons in Hk as [->|Hk]); [..|by apply elem_of_nil in Hk];
      rewrite Habsent; simpl; by rewrite ?orb_true_r. }
  by eexists.
Qed.

Lemma createLeague_missing_field_400_witness :
  exists msg,
    serve CreateLeague
      (request (VObj []) (VObj [("id", VStr "l2"); ("description", VStr "d");
                                ("adminId", VStr "a1")]))
      sample_db
    = (Returned tt, mkWorld sample_db [] [] (mkResponse 400 (Some (error_body msg)))).
Proof.
  apply (createLeague_missing_field_400 sample_db _
           (VObj [("id", VStr "l2"); ("description", VStr "d"); ("adminId", VStr "a1")])
           "name").
  - reflexivity.
  - unfold required_fields. repeat constructor.
  - reflexivity.
Defined.

(** C6: when [id], [name], [description] and [adminId] are non-empty
    strings, the only store call is [insert] under key [id] of the document
    [{id, type: "mpg_league", adminId, name, description}], and when it
    returns, its acknowledgment is the body of the (status 200) response. *)
Theorem createLeague_persists_league {S} `{DocumentStore S}
    (s s' : S) (req reqBody : value) (id name description adminId : string) (ack : value) :
  prop req "body" = Returned reqBody ->
  prop reqBody "id" = Returned (VStr id) ->
  prop reqBody "name" = Returned (VStr name) ->
  prop reqBody "description" = Returned (VStr description) ->
  prop reqBody "adminId" = Returned (VStr adminId) ->
  id <> "" -> name <> "" -> description <> "" -> adminId <> "" ->
  let league := VObj [("id", VStr id); ("type", VStr "mpg_league");
                      ("adminId", VStr adminId); ("name", VStr name);
                      ("description", VStr description)] in
  collection_insert (VStr id) league s = (Returned ack, s') ->
  serve CreateLeague req s
  = (Returned tt,
     mkWorld s' [(CInsert (VStr id) league, Returned ack)] [] (mkResponse 200 (Some ack))).
Proof.
  intros Hbody Hid Hname Hdesc Hadmin Nid _ _ _ league Hinsert.
  destruct (prop_returned_truthy _ _ _ Hid) as [fields ->]; [by apply truthy_VStr|].
  apply truthy_VStr in Nid.
  unfold_handler. rewrite Hbody. rewrite (js_not_truthy (VObj fields)) by done.
  rewrite Hid, Hname, Hdesc, Hadmin.
  rewrite !(js_or_truthy (VStr id)), (js_not_truthy _ Nid), !is_string_VStr by done.
  cbn [negb orb store dispatch]. unfold league_document. fold league.
  by rewrite Hinsert.
Qed.

Lemma createLeague_persists_league_witness :
  let league := VObj [("id", VStr "l2"); ("type", VStr "mpg_league");
                      ("adminId", VStr "a1"); ("name", VStr "Ligue 2");
                      ("description", VStr "second")] in
  serve CreateLeague
    (request (VObj [])
       (VObj [("id", VStr "l2"); ("name", VStr "Ligue 2");
              ("description", VStr "second"); ("adminId", VStr "a1")]))
    sample_db
  = (Returned tt,
     mkWorld (<["l2" := league]> sample_db)
       [(CInsert (VStr "l2") league, Returned mutation_ack)] []
       (mkResponse 200 (Some mutation_ack))).
Proof.
  apply (createLeague_persists_league sample_db _ _
           (VObj [("id", VStr "l2"); ("name", VStr "Ligue 2");
                  ("description", VStr "second"); ("adminId", VStr "a1")])
           "l2" "Ligue 2" "second" "a1" mutation_ack);
    try reflexivity; try discriminate.
Defined.

(** C1: the body [{id: "l2", name: "", description: "d", adminId: "a1"}]
    has a falsy field, yet the guard [!(id || name || description ||
    adminId)] lets it through: whatever the store, [insert] is called with
    a league whose name is empty and the answer is not 400. *)
Theorem createLeague_empty_name_reaches_insert {S} `{DocumentStore S} (s : S) :
  let req := request (VObj [])
               (VObj [("id", VStr "l2"); ("name", VStr "");
                      ("description", VStr "d"); ("adminId", VStr "a1")]) in
  let league := VObj [("id", VStr "l2"); ("type", VStr "mpg_league");
                      ("adminId", VStr "a1"); ("name", VStr "");
                      ("description", VStr "d")] in
  exists w,
    serve CreateLeague req s = (Returned tt, w)
    /\ trace w = [(CInsert (VStr "l2") league, (collection_insert (VStr "l2") league s).1)]
    /\ statusCode (res w) <> 400
    /\ (forall ack s', collection_insert (VStr "l2") league s = (Returned ack, s') ->
        store w = s' /\ res w = mkResponse 200 (Some ack)).
Proof.
  intros req league. unfold_handler. cbn. unfold league_document.
  fold league. destruct (collection_insert (VStr "l2") league s) as [[ack|err] s1];
    eexists; (split; [reflexivity|]); cbn;
    (split; [reflexivity|]); (split; [discriminate|]).
  - by intros ?? [= <- <-].
  - intros ?? [=].
Qed.

(** ** List users from league *)


Lemma params_missing_valid req params leagueId :
  prop req "params" = Returned params ->
  prop params "leagueId" = Returned leagueId ->
  truthy leagueId = true ->
  params_missing req = Returned false.
Proof.
  intros Hparams Hleague Ht.
  destruct (prop_returned_truthy _ _ _ Hleague Ht) as [pfields ->].
  destruct (prop_returned_truthy _ _ _ Hparams eq_refl) as [rfields ->].
  unfold params_missing. rewrite Hparams.
  cbn [omap lazy_or obind js_not truthy negb]. rewrite Hleague.
  cbn [omap]. by rewrite (js_not_truthy _ Ht).
Qed.

Lemma flat_cons_not_array v l : is_array v = false -> flat (v :: l) = v :: flat l.
Proof. by destruct v. Qed.

(** The "users found" branch: the first row is an object with at least one
    key, its [usersTeams] is not an array, and no later row is [null] or
    [undefined]. *)
Lemma getUsersFromLeague_found {S} `{DocumentStore S}
    (s s' : S) (req params leagueId result : value)
    (row0 : list (string * value)) (rest : list value) (names : list value) :
  prop req "params" = Returned params ->
  prop params "leagueId" = Returned leagueId ->
  truthy leagueId = true ->
  let options := VObj [("parameters", VObj [("leagueId", leagueId)])] in
  cluster_query (VStr users_query) options s = (Returned result, s') ->
  prop result "rows" = Returned (VArr (VObj row0 :: rest)) ->
  row0 <> [] ->
  is_array (read_field (VObj row0) "usersTeams") = false ->
  Object_values (read_field (VObj row0) "usersTeams") = Returned names ->
  Forall (fun row => nullish row = false) rest ->
  serve GetUsersFromLeague req s
  = (Returned tt,
     mkWorld s' [(CQuery (VStr users_query) options, Returned result)] []
       (mkResponse 200 (Some (VObj [("users", VArr (map user_of names))])))).
Proof.
  intros Hparams Hleague Ht options Hquery Hrows Hrow0 Harr Hvalues Hrest.
  unfold_handler.
  rewrite (params_missing_valid _ _ _ Hparams Hleague Ht), Hparams, Hleague.
  cbn [dispatch store]. fold options. rewrite Hquery.
  unfold has_first_row. rewrite Hrows. cbn [omap truthy lazy_and obind first_element hd Object_keys].
  assert (Nat.ltb 0 (length (map fst row0)) = true) as -> by (by destruct row0).
  cbn [array_map mapO]. rewrite (mapO_not_nullish _ _ Hrest).
  change (prop (VObj row0) "usersTeams") with (Returned (read_field (VObj row0) "usersTeams")).
  cbv iota. rewrite (flat_cons_not_array _ _ Harr). cbn [hd]. by rewrite Hvalues.
Qed.

(** C2: when the first row of the query result is an object whose
    [usersTeams] is a mapping, the answer is 200 with one [{name: v}] per
    value [v] of that mapping, in the mapping's order, whatever objects the
    later rows are; for [{"u1": "Alice", "u2": "Bob"}] this is
    [{users: [{name: "Alice"}, {name: "Bob"}]}]. *)
Theorem getUsersFromLeague_first_row_values {S} `{DocumentStore S}
    (s s' : S) (req params leagueId result : value)
    (row0 teams : list (string * value)) (rest : list value) :
  prop req "params" = Returned params ->
  prop params "leagueId" = Returned leagueId ->
  truthy leagueId = true ->
  let options := VObj [("parameters", VObj [("leagueId", leagueId)])] in
  cluster_query (VStr users_query) options s = (Returned result, s') ->
  prop result "rows" = Returned (VArr (VObj row0 :: rest)) ->
  lookup_field "usersTeams" row0 = Some (VObj teams) ->
  Forall (fun row => nullish row = false) rest ->
  serve GetUsersFromLeague req s
  = (Returned tt,
     mkWorld s' [(CQuery (VStr users_query) options, Returned result)] []
       (mkResponse 200
          (Some (VObj [("users", VArr (map (fun v => VObj [("name", v)]) (map snd teams)))]))))
  /\ (teams = [("u1", VStr "Alice"); ("u2", VStr "Bob")] ->
      res (serve GetUsersFromLeague req s).2
      = mkResponse 200
          (Some (VObj [("users", VArr [VObj [("name", VStr "Alice")];
                                       VObj [("name", VStr "Bob")]])]))).
Proof.
  intros Hparams Hleague Ht options Hquery Hrows Hteams Hrest.
  assert (serve GetUsersFromLeague req s
          = (Returned tt,
             mkWorld s' [(CQuery (VStr users_query) options, Returned result)] []
               (mkResponse 200
                  (Some (VObj [("users", VArr (map user_of (map snd teams)))]))))) as Hserve.
  { apply (getUsersFromLeague_found s s' req params leagueId result row0 rest); try done.
    - intros ->. discriminate.
    - simpl. by rewrite Hteams.
    - simpl. by rewrite Hteams. }
  split; [exact Hserve|].
  intros ->. by rewrite Hserve.
Qed.

Lemma getUsersFromLeague_first_row_values_witness :
  let options := VObj [("parameters", VObj [("leagueId", VStr "l1")])] in
  let result :=
    VObj [("rows", VArr [VObj [("usersTeams", VObj alice_bob)];
                         VObj [("usersTeams", VObj [("u3", VStr "Carol")])]])] in
  serve GetUsersFromLeague (league_request "l1") crowded_db
  = (Returned tt,
     mkWorld crowded_db [(CQuery (VStr users_query) options, Returned result)] []
       (mkResponse 200
          (Some (VObj [("users", VArr (map (fun v => VObj [("name", v)]) (map snd alice_bob)))]))))
  /\ (alice_bob = [("u1", VStr "Alice"); ("u2", VStr "Bob")] ->
      res (serve GetUsersFromLeague (league_request "l1") crowded_db).2
      = mkResponse 200
          (Some (VObj [("users", VArr [VObj [("name", VStr "Alice")];
                                       VObj [("name", VStr "Bob")]])]))).
Proof.
  apply (getUsersFromLeague_first_row_values crowded_db crowded_db
           (league_request "l1") (VObj [("leagueId", VStr "l1")]) (VStr "l1")
           (VObj [("rows", VArr [VObj [("usersTeams", VObj alice_bob)];
                                 VObj [("usersTeams", VObj [("u3", VStr "Carol")])]])])
           [("usersTeams", VObj alice_bob)] alice_bob
           [VObj [("usersTeams", VObj [("u3", VStr "Carol")])]]).
  - reflexivity.
  - reflexivity.
  - reflexivity.
  - vm_compute. reflexivity.
  - reflexivity.
  - reflexivity.
  - repeat constructor.
Defined.

(** C4: when the query result has no row, or its first row is the empty
    object, the answer is 204 with [{users: []}], whatever the later rows. *)
Theorem getUsersFromLeague_no_first_row_204 {S} `{DocumentStore S}
    (s s' : S) (req params leagueId result : value) (rows : list value) :
  prop req "params" = Returned params ->
  prop params "leagueId" = Returned leagueId ->
  truthy leagueId = true ->
  let options := VObj [("parameters", VObj [("leagueId", leagueId)])] in
  cluster_query (VStr users_query) options s = (Returned result, s') ->
  prop result "rows" = Returned (VArr rows) ->
  rows = [] \/ (exists rest, rows = VObj [] :: rest) ->
  serve GetUsersFromLeague req s
  = (Returned tt,
     mkWorld s' [(CQuery (VStr users_query) options, Returned result)] []
       (mkResponse 204 (Some (VObj [("users", VArr [])])))).
Proof.
  intros Hparams Hleague Ht options Hquery Hrows Hshape.
  unfold_handler.
  rewrite (params_missing_valid _ _ _ Hparams Hleague Ht), Hparams, Hleague.
  cbn [dispatch store]. fold options. rewrite Hquery.
  unfold has_first_row. rewrite Hrows.
  by destruct Hshape as [->|[rest ->]].
Qed.

Lemma getUsersFromLeague_no_first_row_204_witness :
  let options := VObj [("parameters", VObj [("leagueId", VStr "l0")])] in
  let later := VObj [("usersTeams", VObj [("u7", VStr "Dan")])] in
  serve GetUsersFromLeague (league_request "l0") crowded_db
  = (Returned tt,
     mkWorld crowded_db
       [(CQuery (VStr users_query) options,
         Returned (VObj [("rows", VArr [VObj []; later])]))] []
       (mkResponse 204 (Some (VObj [("users", VArr [])])))).
Proof.
  apply (getUsersFromLeague_no_first_row_204 crowded_db crowded_db
           (league_request "l0") (VObj [("leagueId", VStr "l0")]) (VStr "l0")
           (VObj [("rows", VArr [VObj []; VObj [("usersTeams", VObj [("u7", VStr "Dan")])]])])
           [VObj []; VObj [("usersTeams", VObj [("u7", VStr "Dan")])]]).
  - reflexivity.
  - reflexivity.
  - reflexivity.
  - vm_compute. reflexivity.
  - reflexivity.
  - right. eexists. reflexivity.
Defined.

(** C10: when the first row is a non-empty object whose [usersTeams] is the
    empty mapping, the answer is 200 with [{users: []}], not 204: the test
    [Object.keys(result.rows[0]).length > 0] counts the keys of the row, not
    those of its [usersTeams]. *)
Theorem getUsersFromLeague_empty_usersTeams_200 {S} `{DocumentStore S}
    (s s' : S) (req params leagueId result : value)
    (row0 : list (string * value)) (rest : list value) :
  prop req "params" = Returned params ->
  prop params "leagueId" = Returned leagueId ->
  truthy leagueId = true ->
  let options := VObj [("parameters", VObj [("leagueId", leagueId)])] in
  cluster_query (VStr users_query) options s = (Returned result, s') ->
  prop result "rows" = Returned (VArr (VObj row0 :: rest)) ->
  lookup_field "usersTeams" row0 = Some (VObj []) ->
  Forall (fun row => nullish row = false) rest ->
  has_first_row result = Returned true
  /\ serve GetUsersFromLeague req s
     = (Returned tt,
        mkWorld s' [(CQuery (VStr users_query) options, Returned result)] []
          (mkResponse 200 (Some (VObj [("users", VArr [])])))).
Proof.
  intros Hparams Hleague Ht options Hquery Hrows Hteams Hrest. split.
  - unfold has_first_row. rewrite Hrows. by destruct row0.
  - apply (getUsersFromLeague_found s s' req params leagueId result row0 rest []);
      try done.
    + intros ->. discriminate.
    + simpl. by rewrite Hteams.
    + simpl. by rewrite Hteams.
Qed.

Lemma getUsersFromLeague_empty_usersTeams_200_witness :
  let options := VObj [("parameters", VObj [("leagueId", VStr "l9")])] in
  let result := VObj [("rows", VArr [VObj [("usersTeams", VObj [])]])] in
  has_first_row result = Returned true
  /\ serve GetUsersFromLeague (league_request "l9") crowded_db
     = (Returned tt,
        mkWorld crowded_db [(CQuery (VStr users_query) options, Returned result)] []
          (mkResponse 200 (Some (VObj [("users", VArr [])])))).
Proof.
  apply (getUsersFromLeague_empty_usersTeams_200 crowded_db crowded_db
           (league_request "l9") (VObj [("leagueId", VStr "l9")]) (VStr "l9")
           (VObj [("rows", VArr [VObj [("usersTeams", VObj [])]])])
           [("usersTeams", VObj [])] []).
  - reflexivity.
  - reflexivity.
  - reflexivity.
  - vm_compute. reflexivity.
  - reflexivity.
  - reflexivity.
  - constructor.
Defined.

(** ** Update team name *)


(** What the handler does once [teamId] and [name] have passed validation. *)
Lemma updateTeamName_valid {S} `{DocumentStore S}
    (s : S) (req reqBody reqParams : value) (teamId name : string) :
  prop req "body" = Returned reqBody ->
  prop req "params" = Returned reqParams ->
  prop reqParams "teamId" = Returned (VStr teamId) ->
  prop reqBody "name" = Returned (VStr name) ->
  teamId <> "" -> name <> "" ->
  serve UpdateTeamName req s
  = match collection_get (VStr teamId) s with
    | (Thrown err, s1) => update_failed s1 [(CGet (VStr teamId), Thrown err)] err
    | (Returned result, s1) =>
        let fetched := (CGet (VStr teamId), Returned result) in
        match team_missing result with
        | Thrown err => update_failed s1 [fetched] err
        | Returned true => answered s1 [fetched] [] 404 (error_body "Team not found")
        | Returned false =>
            match obind (prop result "content")
                    (fun content => assign_prop content "name" (VStr name)) with
            | Thrown err => update_failed s1 [fetched] err
            | Returned team =>
                match collection_replace (VStr teamId) team s1 with
                | (Thrown err, s2) =>
                    update_failed s2 [fetched; (CReplace (VStr teamId) team, Thrown err)] err
                | (Returned ack, s2) =>
                    answered s2 [fetched; (CReplace (VStr teamId) team, Returned ack)] []
                      200 (message_body "Team name updated successfully")
                end
            end
        end
    end.
Proof.
  intros Hbody Hparams Hteam Hname NteamId Nname.
  apply truthy_VStr in NteamId, Nname.
  destruct (prop_returned_truthy _ _ _ Hteam NteamId) as [pfields ->].
  destruct (prop_returned_truthy _ _ _ Hname Nname) as [bfields ->].
  unfold_handler. unfold body_or_params_missing.
  rewrite Hbody, Hparams. cbn [omap lazy_or js_not truthy negb].
  rewrite Hteam, Hname.
  rewrite (js_not_truthy _ NteamId), (js_not_truthy _ Nname), !is_string_VStr.
  cbn [negb orb dispatch store trace console res app].
  destruct (collection_get (VStr teamId) s) as [[result|err] s1]; [|done].
  destruct (team_missing result) as [[|]|err]; [done| |done].
  destruct (prop result "content") as [content|err]; [|done].
  cbn [obind].
  destruct (assign_prop content "name" (VStr name)) as [team|err]; [|done].
  cbn [dispatch store trace console res app].
  by destruct (collection_replace (VStr teamId) team s1) as [[ack|err] s2].
Qed.

Lemma team_missing_content result content :
  prop result "content" = Returned content ->
  truthy content = true ->
  team_missing result = Returned false.
Proof.
  intros Hcontent Ht.
  destruct (prop_returned_truthy _ _ _ Hcontent Ht) as [fields ->].
  unfold team_missing. rewrite Hcontent. cbn [omap lazy_or js_not truthy negb].
  by rewrite (js_not_truthy _ Ht).
Qed.

(** A fetch that returns no document, or one without content, is answered
    404 and nothing is written. *)
Lemma updateTeamName_without_content_404 {S} `{DocumentStore S}
    (s s1 : S) (req reqBody reqParams result : value) (teamId name : string) :
  prop req "body" = Returned reqBody ->
  prop req "params" = Returned reqParams ->
  prop reqParams "teamId" = Returned (VStr teamId) ->
  prop reqBody "name" = Returned (VStr name) ->
  teamId <> "" -> name <> "" ->
  collection_get (VStr teamId) s = (Returned result, s1) ->
  team_missing result = Returned true ->
  serve UpdateTeamName req s
  = answered s1 [(CGet (VStr teamId), Returned result)] [] 404 (error_body "Team not found").
Proof.
  intros Hbody Hparams Hteam Hname NteamId Nname Hget Hmissing.
  rewrite (updateTeamName_valid s req reqBody reqParams teamId name) by done.
  by rewrite Hget, Hmissing.
Qed.

(** C3: on a store that throws on a missing-key get, renaming a team that
    does not exist is answered 500 with the generic message, not 404; the
    404 branch is only reached when the fetch returns.  The store is left
    as it was and no write is attempted. *)
Theorem updateTeamName_missing_key_500 (db : gmap string value) (teamId name : string) :
  db !! teamId = None ->
  teamId <> "" -> name <> "" ->
  serve UpdateTeamName (team_request teamId name) db
  = (Returned tt,
     mkWorld db [(CGet (VStr teamId), Thrown document_not_found)]
       [("An error occured while updating team: ", document_not_found)]
       (mkResponse 500 (Some (error_body update_failure_message)))).
Proof.
  intros Hnone NteamId Nname.
  rewrite (updateTeamName_valid db _ (VObj [("name", VStr name)])
             (VObj [("teamId", VStr teamId)]) teamId name) by done.
  cbn [collection_get kv_store]. by rewrite Hnone.
Qed.

Lemma updateTeamName_missing_key_500_witness :
  serve UpdateTeamName (team_request "t9" "NewName") sample_db
  = (Returned tt,
     mkWorld sample_db [(CGet (VStr "t9"), Thrown document_not_found)]
       [("An error occured while updating team: ", document_not_found)]
       (mkResponse 500 (Some (error_body update_failure_message)))).
Proof.
  apply (updateTeamName_missing_key_500 sample_db "t9" "NewName").
  - vm_compute. reflexivity.
  - discriminate.
  - discriminate.
Defined.

(** C5: when the fetch returns a document with content, the handler makes
    one write: [replace] under the same [teamId] of the fetched content with
    [name] set to the new value and every other field as fetched; when the
    write returns, the answer is 200 with
    [{message: "Team name updated successfully"}]. *)
Theorem updateTeamName_writes_renamed_document {S} `{DocumentStore S}
    (s s1 : S) (req reqBody reqParams result : value) (teamId name : string)
    (fields : list (string * value)) :
  prop req "body" = Returned reqBody ->
  prop req "params" = Returned reqParams ->
  prop reqParams "teamId" = Returned (VStr teamId) ->
  prop reqBody "name" = Returned (VStr name) ->
  teamId <> "" -> name <> "" ->
  collection_get (VStr teamId) s = (Returned result, s1) ->
  prop result "content" = Returned (VObj fields) ->
  let written := set_field "name" (VStr name) fields in
  let replaced := collection_replace (VStr teamId) (VObj written) s1 in
  let served := serve UpdateTeamName req s in
  trace served.2
  = [(CGet (VStr teamId), Returned result);
     (CReplace (VStr teamId) (VObj written), replaced.1)]
  /\ store served.2 = replaced.2
  /\ lookup_field "name" written = Some (VStr name)
  /\ (forall k, k <> "name" -> lookup_field k written = lookup_field k fields)
  /\ (forall ack, replaced.1 = Returned ack ->
      served.1 = Returned tt
      /\ console served.2 = []
      /\ res served.2
         = mkResponse 200 (Some (VObj [("message", VStr "Team name updated successfully")]))).
Proof.
  intros Hbody Hparams Hteam Hname NteamId Nname Hget Hcontent written replaced served.
  assert (served
          = match replaced with
            | (Thrown err, s2) =>
                update_failed s2 [(CGet (VStr teamId), Returned result);
                                  (CReplace (VStr teamId) (VObj written), Thrown err)] err
            | (Returned ack, s2) =>
                answered s2 [(CGet (VStr teamId), Returned result);
                             (CReplace (VStr teamId) (VObj written), Returned ack)] []
                  200 (message_body "Team name updated successfully")
            end) as ->.
  { unfold served.
    rewrite (updateTeamName_valid s req reqBody reqParams teamId name) by done.
    rewrite Hget, (team_missing_content _ _ Hcontent eq_refl), Hcontent.
    reflexivity. }
  split_and!.
  - by destruct replaced as [[ack|err] s2].
  - by destruct replaced as [[ack|err] s2].
  - apply lookup_field_set_field_eq.
  - intros k Hk. by apply lookup_field_set_field_ne.
  - intros ack Hack. destruct replaced as [[ack'|err] s2]; [done|discriminate].
Qed.

Lemma updateTeamName_writes_renamed_document_witness :
  let renamed := [("id", VStr "t1"); ("type", VStr "mpg_team"); ("name", VStr "NewName");
                  ("budget", VNum 500)] in
  let served := serve UpdateTeamName (team_request "t1" "NewName") sample_db in
  served.1 = Returned tt
  /\ trace served.2
     = [(CGet (VStr "t1"), Returned (VObj [("content", sample_team)]));
        (CReplace (VStr "t1") (VObj renamed), Returned mutation_ack)]
  /\ store served.2 = <["t1" := VObj renamed]> sample_db
  /\ res served.2
     = mkResponse 200 (Some (VObj [("message", VStr "Team name updated successfully")])).
Proof.
  destruct (updateTeamName_writes_renamed_document sample_db sample_db
              (team_request "t1" "NewName") (VObj [("name", VStr "NewName")])
              (VObj [("teamId", VStr "t1")]) (VObj [("content", sample_team)])
              "t1" "NewName"
              [("id", VStr "t1"); ("type", VStr "mpg_team"); ("name", VStr "OldName");
               ("budget", VNum 500)])
    as (Htrace & Hstore & _ & _ & Hres).
  - reflexivity.
  - reflexivity.
  - reflexivity.
  - reflexivity.
  - discriminate.
  - discriminate.
  - vm_compute. reflexivity.
  - reflexivity.
  - destruct (Hres mutation_ack) as (Hret & _ & Hanswer); [vm_compute; reflexivity|].
    split; [exact Hret|]. split; [exact Htrace|]. split; [|exact Hanswer].
    rewrite Hstore. vm_compute. reflexivity.
Defined.

(** Only a request that passes validation can be answered 200. *)
Lemma updateTeamName_200_valid {S} `{DocumentStore S} (s : S) (req : value) :
  statusCode (res (serve UpdateTeamName req s).2) = 200 ->
  exists reqBody reqParams teamId name,
    prop req "body" = Returned reqBody
    /\ prop req "params" = Returned reqParams
    /\ prop reqParams "teamId" = Returned (VStr teamId)
    /\ prop reqBody "name" = Returned (VStr name)
    /\ teamId <> "" /\ name <> "".
Proof.
  unfold_handler. unfold body_or_params_missing.
  destruct (prop req "body") as [reqBody|err] eqn:Hbody; [|discriminate].
  cbn [omap lazy_or].
  destruct (js_not reqBody) eqn:Ebody; [discriminate|].
  destruct (prop req "params") as [reqParams|err] eqn:Hparams; [|discriminate].
  cbn [omap].
  destruct (js_not reqParams) eqn:Eparams; [discriminate|].
  destruct (prop reqParams "teamId") as [teamId|err] eqn:Hteam; [|discriminate].
  destruct (prop reqBody "name") as [name|err] eqn:Hname; [|discriminate].
  destruct (js_not teamId) eqn:EteamId; [discriminate|].
  destruct (js_not name) eqn:Ename; [discriminate|].
  cbn [orb].
  destruct (is_string teamId) eqn:SteamId; [|discriminate].
  destruct (is_string name) eqn:Sname; [|discriminate].
  intros _.
  apply is_string_inv in SteamId as [t ->]. apply is_string_inv in Sname as [n ->].
  exists reqBody, reqParams, t, n. split_and!; try done.
  - by apply truthy_VStr, js_not_false.
  - by apply truthy_VStr, js_not_false.
Qed.

(** On the reference store, a rename answered 200 has put the renamed
    content under the key, and that content is a fixed point of the rename. *)
Lemma updateTeamName_200_stored (db : gmap string value) (req : value) :
  statusCode (res (serve UpdateTeamName req db).2) = 200 ->
  exists reqBody reqParams teamId name team,
    prop req "body" = Returned reqBody
    /\ prop req "params" = Returned reqParams
    /\ prop reqParams "teamId" = Returned (VStr teamId)
    /\ prop reqBody "name" = Returned (VStr name)
    /\ teamId <> "" /\ name <> ""
    /\ truthy team = true
    /\ assign_prop team "name" (VStr name) = Returned team
    /\ store (serve UpdateTeamName req db).2 = <[teamId := team]> db.
Proof.
  intros H200.
  destruct (updateTeamName_200_valid db req H200)
    as (reqBody & reqParams & teamId & name & Hbody & Hparams & Hteam & Hname & Nt & Nn).
  exists reqBody, reqParams, teamId, name.
  rewrite (updateTeamName_valid db req reqBody reqParams teamId name) in H200 |- * by done.
  unfold update_failed, answered in H200 |- *.
  cbn [collection_get collection_replace kv_store] in H200 |- *.
  destruct (db !! teamId) as [doc|] eqn:Hdoc; [|cbn in H200; discriminate].
  cbn in H200 |- *.
  destruct (js_not doc) eqn:Hdoct; [discriminate|].
  apply js_not_false in Hdoct.
  destruct (assign_prop doc "name" (VStr name)) as [team|err] eqn:Hassign;
    [|discriminate].
  rewrite Hdoc. cbn.
  exists team. split_and!; try done.
  - by eapply assign_prop_truthy.
  - by eapply assign_prop_idem.
Qed.

(** C8: on the reference store, a rename that was answered 200 and is
    repeated with the same request is answered 200 again and leaves the
    store exactly as the first one left it. *)
Theorem updateTeamName_idempotent (db : gmap string value) (req : value) :
  let once := serve UpdateTeamName req db in
  statusCode (res once.2) = 200 ->
  let twice := serve UpdateTeamName req (store once.2) in
  statusCode (res twice.2) = 200 /\ store twice.2 = store once.2.
Proof.
  intros once H200 twice. unfold twice.
  destruct (updateTeamName_200_stored db req H200)
    as (reqBody & reqParams & teamId & name & team & Hbody & Hparams & Hteam & Hname
        & Nt & Nn & Htruthy & Hfix & Hstore).
  fold once in Hstore. rewrite Hstore.
  rewrite (updateTeamName_valid _ req reqBody reqParams teamId name) by done.
  cbn [collection_get collection_replace kv_store].
  rewrite lookup_insert_eq.
  rewrite (team_missing_content (VObj [("content", team)]) team) by done.
  change (prop (VObj [("content", team)]) "content") with (Returned team).
  cbn [obind]. rewrite Hfix, lookup_insert_eq. cbn.
  by rewrite insert_insert_eq.
Qed.

Lemma updateTeamName_idempotent_witness :
  let once := serve UpdateTeamName (team_request "t1" "NewName") sample_db in
  let twice := serve UpdateTeamName (team_request "t1" "NewName") (store once.2) in
  statusCode (res twice.2) = 200 /\ store twice.2 = store once.2.
Proof.
  apply (updateTeamName_idempotent sample_db (team_request "t1" "NewName")).
  vm_compute. reflexivity.
Defined.

(** ** Failures of the store *)


Lemma quiet_ret {S A} (a : A) : quiet (S := S) (ret a).
Proof. by intros w. Qed.

Lemma quiet_lift {S A} (o : outcome A) : quiet (S := S) (lift o).
Proof. intros w. unfold lift. by destruct o. Qed.

Lemma quiet_res_status {S} code : quiet (S := S) (res_status code).
Proof. by intros w. Qed.

Lemma quiet_res_json {S} b : quiet (S := S) (res_json b).
Proof. by intros w. Qed.

Lemma quiet_console_log {S} label err : quiet (S := S) (console_log label err).
Proof. by intros w. Qed.

Lemma quiet_perform {S} `{DocumentStore S} (c : call) : quiet (perform c).
Proof.
  intros w. unfold perform. destruct (dispatch c (store w)) as [[a|err] s']; [|done].
  cbn [trace]. rewrite existsb_app. cbn. by rewrite !orb_false_r.
Qed.

Lemma quiet_bind {S A B} (m : M S A) (k : A -> M S B) :
  quiet m -> (forall a, quiet (k a)) -> quiet (bind m k).
Proof.
  intros Hm Hk w. unfold bind. specialize (Hm w).
  destruct (m w) as [[a|err] w1]; [|done].
  specialize (Hk a w1). destruct (k a w1) as [[b|err] w2]; [|done].
  by rewrite Hk.
Qed.

Lemma quiet_if {S A} (b : bool) (m1 m2 : M S A) :
  quiet m1 -> quiet m2 -> quiet (if b then m1 else m2).
Proof. by destruct b. Qed.

#[local] Hint Resolve quiet_ret quiet_lift quiet_res_status quiet_res_json
  quiet_console_log quiet_perform quiet_bind quiet_if : quiet.

Ltac quiet_steps :=
  repeat match goal with
         | |- forall _, _ => intro
         | |- quiet (let _ := _ in _) => cbv zeta
         | |- quiet (bind _ _) => apply quiet_bind
         | |- quiet (if _ then _ else _) => apply quiet_if
         | |- quiet _ => solve [auto with quiet]
         end.

(** A handler body wrapped in the handlers' catch block never throws, and
    answers 500 with the fixed message whenever the body threw. *)
Lemma try_catch_answers {S} (handler_body : M S unit) (label msg : string) (s : S) :
  quiet handler_body ->
  exists w,
    try_catch handler_body
      (fun err => console_log label err ;; res_status 500 ;; res_json (error_body msg))
      (init_world s)
    = (Returned tt, w)
    /\ (existsb threw (trace w) = true ->
        res w = mkResponse 500 (Some (error_body msg))).
Proof.
  intros Hquiet. unfold try_catch. specialize (Hquiet (init_world s)).
  destruct (handler_body (init_world s)) as [[[]|err] w1].
  - exists w1. split; [done|]. rewrite Hquiet. discriminate.
  - eexists. split; [reflexivity|]. done.
Qed.

(** C9: whatever the store does and whatever the request, each of the three
    handlers completes without throwing, and if one of its store calls
    threw, the answer is 500 with the handler's own fixed message, the same
    for every thrown value. *)
Theorem handlers_catch_store_failures {S} `{DocumentStore S}
    (h : handler) (req : value) (s : S) :
  exists w,
    serve h req s = (Returned tt, w)
    /\ (existsb threw (trace w) = true ->
        res w = mkResponse 500 (Some (VObj [("error", VStr (failure_message h))]))).
Proof.
  unfold serve. destruct h; cbn [run_handler failure_message].
  - apply try_catch_answers. unfold toCreateLeague, insert. quiet_steps.
  - apply try_catch_answers. unfold toGetUsersFromLeague, query. quiet_steps.
  - apply try_catch_answers. unfold toGetTeam, toUpdateTeam, get, replace. quiet_steps.
Qed.

(** ** The handlers, case by case *)

Lemma prop_nullish v k : nullish v = true -> prop v k = Thrown type_error.
Proof. unfold prop. by intros ->. Qed.

Lemma prop_returned v k x : prop v k = Returned x -> x = read_field v k.
Proof. unfold prop. destruct (nullish v); [done|]. by intros [= <-]. Qed.

Lemma read_field_falsy v k : truthy v = false -> read_field v k = VUndefined.
Proof. by destruct v. Qed.

Lemma js_not_true v : js_not v = true -> truthy v = false.
Proof. unfold js_not. by destruct (truthy v). Qed.

(** What [createLeague] does on a request object, by the shape of its body. *)
Lemma createLeague_cases {S} `{DocumentStore S} (s : S) (req reqBody : value) :
  prop req "body" = Returned reqBody ->
  let id := read_field reqBody "id" in
  let name := read_field reqBody "name" in
  let description := read_field reqBody "description" in
  let adminId := read_field reqBody "adminId" in
  serve CreateLeague req s
  = if js_not reqBody then
      answered s [] [] 400 (error_body "Request body is missing")
    else if js_not (js_or (js_or (js_or id name) description) adminId) then
      answered s [] [] 400 (error_body "Missing required properties")
    else if negb (is_string id) || negb (is_string name)
            || negb (is_string description) || negb (is_string adminId) then
      answered s [] [] 400 (error_body "Invalid data type for properties")
    else
      let league := league_document id name description adminId in
      match collection_insert id league s with
      | (Returned ack, s') => answered s' [(CInsert id league, Returned ack)] [] 200 ack
      | (Thrown err, s') => handler_failed CreateLeague s' [(CInsert id league, Thrown err)] err
      end.
Proof.
  intros Hbody id name description adminId. unfold_handler. rewrite Hbody.
  destruct (js_not reqBody) eqn:Ebody; [done|].
  apply js_not_false in Ebody as Ht. rewrite !(prop_truthy _ _ Ht).
  fold id name description adminId.
  destruct (js_not (js_or _ _)); [done|].
  destruct (negb (is_string id) || _ || _ || _); [done|].
  cbn [dispatch store trace console res app].
  by destruct (collection_insert _ _ s) as [[ack|err] s'].
Qed.

(** [!req || !req.params || !req.params.leagueId] never throws: it is the
    falsity of the [leagueId] route parameter, read through whatever [req]
    and [req.params] are. *)
Lemma params_missing_reads (req : value) :
  params_missing req = Returned (js_not (read_field (read_field req "params") "leagueId")).
Proof.
  unfold params_missing. destruct (js_not req) eqn:Ereq; cbn [lazy_or].
  - apply js_not_true in Ereq. by rewrite (read_field_falsy req), (read_field_falsy VUndefined).
  - apply js_not_false in Ereq. rewrite (prop_truthy _ _ Ereq). cbn [omap obind].
    destruct (js_not (read_field req "params")) eqn:Eparams; cbn [lazy_or].
    + apply js_not_true in Eparams. by rewrite (read_field_falsy (read_field req "params")).
    + apply js_not_false in Eparams. by rewrite (prop_truthy _ _ Eparams).
Qed.

(** What [getUsersFromLeague] does, for every request. *)
Lemma getUsersFromLeague_cases {S} `{DocumentStore S} (s : S) (req : value) :
  let leagueId := read_field (read_field req "params") "leagueId" in
  let asked := CQuery (VStr users_query) (league_options leagueId) in
  serve GetUsersFromLeague req s
  = if js_not leagueId then
      answered s [] [] 400 (error_body "Request params is missing")
    else
      match cluster_query (VStr users_query) (league_options leagueId) s with
      | (Thrown err, s') => handler_failed GetUsersFromLeague s' [(asked, Thrown err)] err
      | (Returned result, s') =>
          match has_first_row result with
          | Thrown err => handler_failed GetUsersFromLeague s' [(asked, Returned result)] err
          | Returned false =>
              answered s' [(asked, Returned result)] [] 204 (VObj [("users", VArr [])])
          | Returned true =>
              match users_of result with
              | Thrown err =>
                  handler_failed GetUsersFromLeague s' [(asked, Returned result)] err
              | Returned users =>
                  answered s' [(asked, Returned result)] [] 200 (VObj [("users", VArr users)])
              end
          end
      end.
Proof.
  intros leagueId asked. unfold_handler. rewrite params_missing_reads. fold leagueId.
  destruct (js_not leagueId) eqn:Eleague; [done|].
  apply js_not_false in Eleague.
  assert (truthy (read_field req "params") = true) as Hparams.
  { destruct (truthy (read_field req "params")) eqn:E; [done|].
    unfold leagueId in Eleague. by rewrite (read_field_falsy _ _ E) in Eleague. }
  assert (truthy req = true) as Hreq.
  { destruct (truthy req) eqn:E; [done|]. by rewrite (read_field_falsy _ _ E) in Hparams. }
  rewrite (prop_truthy _ _ Hreq), (prop_truthy _ _ Hparams). fold leagueId.
  cbn [dispatch store trace console res app].
  change (VObj [("parameters", VObj [("leagueId", leagueId)])]) with (league_options leagueId).
  destruct (cluster_query _ _ s) as [[result|err] s']; [|done].
  destruct (has_first_row result) as [[|]|err]; [|done|done].
  unfold users_of. destruct (prop result "rows") as [rows|err]; [|done].
  cbn [obind]. destruct (array_map _ rows) as [projected|err]; [|done].
  cbn [obind]. by destruct (Object_values _) as [names|err].
Qed.

(** [!req.body || !req.params] followed by the checks on [teamId] and
    [name]: a request object that fails them is answered 400 before any
    store call. *)
Lemma updateTeamName_rejected {S} `{DocumentStore S} (s : S) (req reqBody : value) :
  prop req "body" = Returned reqBody ->
  let teamId := read_field (read_field req "params") "teamId" in
  let name := read_field reqBody "name" in
  truthy teamId && truthy name && is_string teamId && is_string name = false ->
  exists msg, serve UpdateTeamName req s = answered s [] [] 400 (error_body msg).
Proof.
  intros Hbody teamId name Hbad.
  assert (nullish req = false) as Hreq
    by (unfold prop in Hbody; by destruct (nullish req)).
  unfold_handler. unfold body_or_params_missing.
  rewrite Hbody, (prop_not_nullish _ _ Hreq). cbn [omap lazy_or].
  destruct (js_not reqBody) eqn:Ebody; [by eexists|]. cbn [lazy_or].
  destruct (js_not (read_field req "params")) eqn:Eparams; [by eexists|].
  apply js_not_false in Ebody, Eparams.
  rewrite (prop_truthy _ _ Ebody), (prop_truthy _ _ Eparams). fold teamId name.
  unfold js_not.
  destruct (truthy teamId); [|by eexists].
  destruct (truthy name); [|by eexists].
  cbn [negb orb]. cbn [andb] in Hbad.
  destruct (is_string teamId); [|by eexists].
  cbn [andb] in Hbad. rewrite Hbad. by eexists.
Qed.

(** A request object whose [teamId] and [name] are non-empty strings has
    them where [updateTeamName_valid] wants them. *)
Lemma updateTeamName_accepted_reads (req reqBody : value) :
  prop req "body" = Returned reqBody ->
  let teamId := read_field (read_field req "params") "teamId" in
  let name := read_field reqBody "name" in
  truthy teamId && truthy name && is_string teamId && is_string name = true ->
  exists t n,
    teamId = VStr t /\ name = VStr n /\ t <> "" /\ n <> ""
    /\ prop req "params" = Returned (read_field req "params")
    /\ prop (read_field req "params") "teamId" = Returned (VStr t)
    /\ prop reqBody "name" = Returned (VStr n).
Proof.
  intros Hbody teamId name Hok.
  apply andb_prop in Hok as [Hok Sname]. apply andb_prop in Hok as [Hok Steam].
  apply andb_prop in Hok as [Tteam Tname].
  apply is_string_inv in Steam as [t Ht]. apply is_string_inv in Sname as [n Hn].
  exists t, n. rewrite Ht in Tteam. rewrite Hn in Tname.
  assert (nullish req = false) as Hreq
    by (unfold prop in Hbody; by destruct (nullish req)).
  assert (truthy (read_field req "params") = true) as Hparams.
  { destruct (truthy (read_field req "params")) eqn:E; [done|].
    unfold teamId in Ht. by rewrite (read_field_falsy _ _ E) in Ht. }
  assert (truthy reqBody = true) as Hb.
  { destruct (truthy reqBody) eqn:E; [done|].
    unfold name in Hn. by rewrite (read_field_falsy _ _ E) in Hn. }
  split_and!; try done.
  - by apply truthy_VStr.
  - by apply truthy_VStr.
  - by apply prop_not_nullish.
  - rewrite (prop_truthy _ _ Hparams). by f_equal.
  - rewrite (prop_truthy _ _ Hb). by f_equal.
Qed.

(** A handler called on [null] or [undefined] for [req]. *)
Lemma createLeague_no_request {S} `{DocumentStore S} (s : S) (req : value) :
  nullish req = true ->
  serve CreateLeague req s = handler_failed CreateLeague s [] type_error.
Proof. intros Hreq. unfold_handler. by rewrite (prop_nullish _ _ Hreq). Qed.

Lemma updateTeamName_no_request {S} `{DocumentStore S} (s : S) (req : value) :
  nullish req = true ->
  serve UpdateTeamName req s = handler_failed UpdateTeamName s [] type_error.
Proof.
  intros Hreq. unfold_handler. unfold body_or_params_missing.
  by rewrite (prop_nullish _ _ Hreq).
Qed.

(** ** Create league: which requests reach the store *)

Lemma league_fields_falsy_body reqBody :
  truthy reqBody = false -> existsb truthy (league_fields reqBody) = false.
Proof.
  intros Hb. unfold league_fields, required_fields. cbn [map existsb].
  by rewrite !(read_field_falsy _ _ Hb).
Qed.

Lemma js_or_chain_truthy (id name description adminId : value) :
  js_not (js_or (js_or (js_or id name) description) adminId)
  = negb (existsb truthy [id; name; description; adminId]).
Proof.
  unfold js_not, js_or. cbn [existsb].
  destruct (truthy id) eqn:E1; rewrite ?E1;
    destruct (truthy name) eqn:E2; rewrite ?E1, ?E2;
    destruct (truthy description) eqn:E3; rewrite ?E1, ?E2, ?E3;
    destruct (truthy adminId) eqn:E4; by rewrite ?E1, ?E2, ?E3, ?E4.
Qed.

Lemma typeof_checks_forallb (id name description adminId : value) :
  negb (is_string id) || negb (is_string name)
  || negb (is_string description) || negb (is_string adminId)
  = negb (forallb is_string [id; name; description; adminId]).
Proof.
  cbn [forallb].
  by destruct (is_string id), (is_string name), (is_string description), (is_string adminId).
Qed.

(** X1: [createLeague] calls the store exactly when the four fields are all
    strings and at least one of them is non-empty. *)
Theorem createLeague_reaches_store_iff {S} `{DocumentStore S}
    (s : S) (req reqBody : value) :
  prop req "body" = Returned reqBody ->
  trace (serve CreateLeague req s).2 <> []
  <-> forallb is_string (league_fields reqBody) = true
      /\ existsb truthy (league_fields reqBody) = true.
Proof.
  intros Hbody. rewrite (createLeague_cases s req reqBody Hbody). cbv zeta.
  rewrite js_or_chain_truthy, typeof_checks_forallb.
  change [read_field reqBody "id"; read_field reqBody "name";
          read_field reqBody "description"; read_field reqBody "adminId"]
    with (league_fields reqBody).
  destruct (js_not reqBody) eqn:Ebody.
  { apply js_not_true in Ebody. rewrite (league_fields_falsy_body _ Ebody).
    cbn. split; [done|]. by intros [_ ?]. }
  destruct (existsb truthy (league_fields reqBody)); cbn [negb].
  - destruct (forallb is_string (league_fields reqBody)); cbn [negb].
    + destruct (collection_insert _ _ s) as [[ack|err] s']; cbn; by split.
    + cbn. split; [done|]. by intros [? _].
  - cbn. split; [done|]. by intros [_ ?].
Qed.

Lemma createLeague_reaches_store_iff_witness :
  let reqBody := VObj [("id", VStr "l2"); ("name", VStr ""); ("description", VStr "");
                       ("adminId", VStr "")] in
  trace (serve CreateLeague (request (VObj []) reqBody) sample_db).2 <> []
  <-> forallb is_string (league_fields reqBody) = true
      /\ existsb truthy (league_fields reqBody) = true.
Proof.
  apply (createLeague_reaches_store_iff sample_db _
           (VObj [("id", VStr "l2"); ("name", VStr ""); ("description", VStr "");
                  ("adminId", VStr "")])).
  reflexivity.
Defined.

(** X2: a create-league body in which one of the four fields is present but
    not a string (a number, a boolean, [null], an array, an object) is
    answered 400 before any store call; nothing is logged. *)
Theorem createLeague_mistyped_field_400 {S} `{DocumentStore S}
    (s : S) (req reqBody : value) (k : string) :
  prop req "body" = Returned reqBody ->
  k ∈ required_fields ->
  is_string (read_field reqBody k) = false ->
  exists msg, serve CreateLeague req s = answered s [] [] 400 (error_body msg).
Proof.
  intros Hbody Hk Hbad. rewrite (createLeague_cases s req reqBody Hbody). cbv zeta.
  destruct (js_not reqBody); [by eexists|].
  destruct (js_not (js_or _ _)); [by eexists|].
  rewrite typeof_checks_forallb.
  assert (forallb is_string [read_field reqBody "id"; read_field reqBody "name";
                             read_field reqBody "description";
                             read_field reqBody "adminId"] = false) as ->.
  { unfold required_fields in Hk. cbn [forallb].
    repeat (apply elem_of_cons in Hk as [->|Hk]); [..|by apply elem_of_nil in Hk];
      rewrite Hbad; by rewrite ?andb_false_r. }
  by eexists.
Qed.

Lemma createLeague_mistyped_field_400_witness :
  exists msg,
    serve CreateLeague
      (request (VObj [])
         (VObj [("id", VNum 42); ("name", VStr "Ligue 2"); ("description", VStr "second");
                ("adminId", VStr "a1")]))
      sample_db
    = answered sample_db [] [] 400 (error_body msg).
Proof.
  apply (createLeague_mistyped_field_400 sample_db _
           (VObj [("id", VNum 42); ("name", VStr "Ligue 2"); ("description", VStr "second");
                  ("adminId", VStr "a1")])
           "id").
  - reflexivity.
  - unfold required_fields. repeat constructor.
  - reflexivity.
Defined.

(** X3: once the four fields have passed the checks, [createLeague] makes
    one [insert] under key [id] and no other call: when it returns, the
    answer is 200 with the acknowledgment; when it throws, the thrown value
    is logged and the answer is 500 with the fixed message. *)
Theorem createLeague_accepted {S} `{DocumentStore S} (s : S) (req reqBody : value) :
  prop req "body" = Returned reqBody ->
  forallb is_string (league_fields reqBody) = true ->
  existsb truthy (league_fields reqBody) = true ->
  let id := read_field reqBody "id" in
  let league := VObj [("id", id); ("type", VStr "mpg_league");
                      ("adminId", read_field reqBody "adminId");
                      ("name", read_field reqBody "name");
                      ("description", read_field reqBody "description")] in
  serve CreateLeague req s
  = match collection_insert id league s with
    | (Returned ack, s') =>
        (Returned tt,
         mkWorld s' [(CInsert id league, Returned ack)] [] (mkResponse 200 (Some ack)))
    | (Thrown err, s') =>
        (Returned tt,
         mkWorld s' [(CInsert id league, Thrown err)]
           [("Error occured while creating league:", err)]
           (mkResponse 500
              (Some (VObj [("error", VStr "An error occured whild creating the league")]))))
    end.
Proof.
  intros Hbody Hstrings Hsome id league.
  rewrite (createLeague_cases s req reqBody Hbody). cbv zeta.
  rewrite js_or_chain_truthy, typeof_checks_forallb.
  change [read_field reqBody "id"; read_field reqBody "name";
          read_field reqBody "description"; read_field reqBody "adminId"]
    with (league_fields reqBody).
  rewrite Hstrings, Hsome. cbn [negb].
  destruct (js_not reqBody) eqn:Ebody; [|done].
  apply js_not_true in Ebody. by rewrite (league_fields_falsy_body _ Ebody) in Hsome.
Qed.

Lemma createLeague_accepted_witness :
  let league := VObj [("id", VStr "l1"); ("type", VStr "mpg_league");
                      ("adminId", VStr "a1"); ("name", VStr "Again");
                      ("description", VStr "taken")] in
  serve CreateLeague
    (request (VObj [])
       (VObj [("id", VStr "l1"); ("name", VStr "Again"); ("description", VStr "taken");
              ("adminId", VStr "a1")]))
    sample_db
  = (Returned tt,
     mkWorld sample_db [(CInsert (VStr "l1") league, Thrown document_exists)]
       [("Error occured while creating league:", document_exists)]
       (mkResponse 500
          (Some (VObj [("error", VStr "An error occured whild creating the league")])))).
Proof.
  pose proof (createLeague_accepted sample_db
                (request (VObj [])
                   (VObj [("id", VStr "l1"); ("name", VStr "Again");
                          ("description", VStr "taken"); ("adminId", VStr "a1")]))
                (VObj [("id", VStr "l1"); ("name", VStr "Again");
                       ("description", VStr "taken"); ("adminId", VStr "a1")])
                eq_refl eq_refl eq_refl) as Hserved.
  exact Hserved.
Defined.

(** ** Every handler, every request *)

Ltac answered_cases :=
  repeat match goal with
         | |- well_answered _ (match ?x with _ => _ end) => destruct x
         | |- well_answered _ (if ?x then _ else _) => destruct x
         | |- well_answered _ (let (_, _) := ?x in _) => destruct x
         end.

Ltac answered_leaf :=
  unfold well_answered, handler_failed, update_failed, answered;
  cbn [snd res statusCode body trace console status_codes log_label existsb threw orb last In];
  split_and!;
  [ tauto
  | by eexists
  | first [ discriminate | intros _; by eexists _, _ ]
  | split; intros; discriminate || done ].

Lemma handlers_well_answered {S} `{DocumentStore S} (h : handler) (req : value) (s : S) :
  well_answered h (serve h req s).
Proof.
  destruct h.
  - destruct (nullish req) eqn:Hreq.
    + rewrite (createLeague_no_request s req Hreq). answered_leaf.
    + rewrite (createLeague_cases s req _ (prop_not_nullish _ "body" Hreq)). cbv zeta.
      answered_cases; answered_leaf.
  - rewrite (getUsersFromLeague_cases s req). cbv zeta.
    answered_cases; answered_leaf.
  - destruct (nullish req) eqn:Hreq.
    + rewrite (updateTeamName_no_request s req Hreq). answered_leaf.
    + pose proof (prop_not_nullish _ "body" Hreq) as Hbody.
      destruct (truthy (read_field (read_field req "params") "teamId")
                && truthy (read_field (read_field req "body") "name")
                && is_string (read_field (read_field req "params") "teamId")
                && is_string (read_field (read_field req "body") "name")) eqn:Hvalid.
      * destruct (updateTeamName_accepted_reads req _ Hbody Hvalid)
          as (t & n & _ & _ & Nt & Nn & Hparams & Hteam & Hname).
        rewrite (updateTeamName_valid s req _ _ t n Hbody Hparams Hteam Hname Nt Nn).
        cbv zeta. answered_cases; answered_leaf.
      * destruct (updateTeamName_rejected s req _ Hbody Hvalid) as [msg ->].
        answered_leaf.
Qed.

(** X4: whatever the request and the store, each handler hands a body to
    [res.json] and leaves a status code among those it sets: 200, 400, 500
    for create-league; 200, 204, 400, 500 for list-users; 200, 400, 404, 500
    for update-team. *)
Theorem handlers_status_codes {S} `{DocumentStore S} (h : handler) (req : value) (s : S) :
  let answer := res (serve h req s).2 in
  In (statusCode answer) (status_codes h) /\ is_Some (body answer).
Proof.
  destruct (handlers_well_answered h req s) as (Hcode & Hbody & _). by split.
Qed.

(** X5: a store call that throws is the last call the handler makes (nothing
    is retried and nothing is attempted after a failure), and the thrown
    value is what the handler writes to the console, under its own label. *)
Theorem handlers_log_the_failed_call {S} `{DocumentStore S}
    (h : handler) (req : value) (s : S) :
  let w := (serve h req s).2 in
  existsb threw (trace w) = true ->
  exists c err, last (trace w) = Some (c, Thrown err)
                /\ console w = [(log_label h, err)].
Proof.
  destruct (handlers_well_answered h req s) as (_ & _ & Hlast & _). exact Hlast.
Qed.

Lemma handlers_log_the_failed_call_witness :
  let w := (serve UpdateTeamName (team_request "t9" "NewName") sample_db).2 in
  exists c err, last (trace w) = Some (c, Thrown err)
                /\ console w = [(log_label UpdateTeamName, err)].
Proof.
  apply (handlers_log_the_failed_call UpdateTeamName (team_request "t9" "NewName") sample_db).
  vm_compute. reflexivity.
Defined.

(** X6: a handler answers 500 exactly when its catch block ran, that is,
    exactly when it wrote a line to the console. *)
Theorem handlers_500_iff_logged {S} `{DocumentStore S} (h : handler) (req : value) (s : S) :
  let w := (serve h req s).2 in
  statusCode (res w) = 500 <-> console w <> [].
Proof.
  destruct (handlers_well_answered h req s) as (_ & _ & _ & Hiff). exact Hiff.
Qed.

(** ** List users: the query and the edge cases of the rows *)

(** X7: [getUsersFromLeague] never writes: it makes at most one store call,
    and that call is the query with the fixed statement, the request's
    [leagueId] being passed as the named parameter only. *)
Theorem getUsersFromLeague_only_queries {S} `{DocumentStore S} (s : S) (req : value) :
  let leagueId := read_field (read_field req "params") "leagueId" in
  let calls := map fst (trace (serve GetUsersFromLeague req s).2) in
  calls = []
  \/ calls = [CQuery (VStr users_query)
                (VObj [("parameters", VObj [("leagueId", leagueId)])])].
Proof.
  intros leagueId calls. unfold calls.
  rewrite (getUsersFromLeague_cases s req). cbv zeta. fold leagueId.
  destruct (js_not leagueId); [by left|]. right.
  destruct (cluster_query _ _ s) as [[result|err] s']; [|done].
  destruct (has_first_row result) as [[|]|err]; [|done|done].
  by destruct (users_of result).
Qed.

(** X8: a list-users request without a usable [leagueId] (no request, no
    [params], or a missing or empty [leagueId]) is answered 400 before any
    store call, and nothing is thrown or logged. *)
Theorem getUsersFromLeague_missing_leagueId_400 {S} `{DocumentStore S}
    (s : S) (req : value) :
  truthy (read_field (read_field req "params") "leagueId") = false ->
  serve GetUsersFromLeague req s
  = (Returned tt,
     mkWorld s [] []
       (mkResponse 400 (Some (VObj [("error", VStr "Request params is missing")])))).
Proof.
  intros Hfalsy. rewrite (getUsersFromLeague_cases s req). cbv zeta.
  unfold js_not. by rewrite Hfalsy.
Qed.

Lemma getUsersFromLeague_missing_leagueId_400_witness :
  serve GetUsersFromLeague VUndefined sample_db
  = (Returned tt,
     mkWorld sample_db [] []
       (mkResponse 400 (Some (VObj [("error", VStr "Request params is missing")])))).
Proof.
  apply (getUsersFromLeague_missing_leagueId_400 sample_db VUndefined). reflexivity.
Defined.

Lemma mapO_prop_cases k (rows : list value) :
  mapO (fun row => prop row k) rows
  = if forallb (fun row => negb (nullish row)) rows
    then Returned (map (fun row => read_field row k) rows)
    else Thrown type_error.
Proof.
  induction rows as [|row rest IH]; [done|]. cbn [mapO forallb map].
  unfold prop at 1. destruct (nullish row); [done|]. cbn [negb andb].
  rewrite IH. by destruct (forallb _ rest).
Qed.

Lemma has_first_row_object result row0 rest :
  prop result "rows" = Returned (VArr (VObj row0 :: rest)) ->
  row0 <> [] ->
  has_first_row result = Returned true.
Proof. intros Hrows Hrow0. unfold has_first_row. rewrite Hrows. by destruct row0. Qed.

Lemma flat_cons_nullish v l : nullish v = true -> hd VUndefined (flat (v :: l)) = v.
Proof. by destruct v. Qed.

Lemma Object_values_nullish v : nullish v = true -> Object_values v = Thrown type_error.
Proof. by destruct v. Qed.

(** X9: when the first row is a non-empty object whose [usersTeams] is
    [null] or missing, [Object.values] (or the read of a [null] later row)
    throws: the answer is 500 with the fixed message, whatever the other
    rows are. *)
Theorem getUsersFromLeague_null_usersTeams_500 {S} `{DocumentStore S}
    (s s' : S) (req result : value) (row0 : list (string * value)) (rest : list value) :
  let leagueId := read_field (read_field req "params") "leagueId" in
  let options := VObj [("parameters", VObj [("leagueId", leagueId)])] in
  truthy leagueId = true ->
  cluster_query (VStr users_query) options s = (Returned result, s') ->
  prop result "rows" = Returned (VArr (VObj row0 :: rest)) ->
  row0 <> [] ->
  nullish (read_field (VObj row0) "usersTeams") = true ->
  serve GetUsersFromLeague req s
  = (Returned tt,
     mkWorld s' [(CQuery (VStr users_query) options, Returned result)]
       [("Error occured while retrieving users from a league:", type_error)]
       (mkResponse 500
          (Some (VObj [("error", VStr "Error occured while retrieving users from a league")])))).
Proof.
  intros leagueId options Ht Hquery Hrows Hrow0 Hnull.
  rewrite (getUsersFromLeague_cases s req). cbv zeta. fold leagueId.
  rewrite (js_not_truthy _ Ht).
  change (league_options leagueId) with options. rewrite Hquery.
  rewrite (has_first_row_object _ _ _ Hrows Hrow0).
  unfold users_of. rewrite Hrows. cbn [obind array_map].
  rewrite mapO_prop_cases. cbn [forallb nullish negb andb map].
  destruct (forallb _ rest); [|done].
  cbn [obind]. rewrite (flat_cons_nullish _ _ Hnull).
  by rewrite (Object_values_nullish _ Hnull).
Qed.

Lemma getUsersFromLeague_null_usersTeams_500_witness :
  let options := VObj [("parameters", VObj [("leagueId", VStr "l5")])] in
  serve GetUsersFromLeague (league_request "l5") edge_db
  = (Returned tt,
     mkWorld edge_db
       [(CQuery (VStr users_query) options,
         Returned (VObj [("rows", VArr [VObj [("usersTeams", VNull)]])]))]
       [("Error occured while retrieving users from a league:", type_error)]
       (mkResponse 500
          (Some (VObj [("error", VStr "Error occured while retrieving users from a league")])))).
Proof.
  apply (getUsersFromLeague_null_usersTeams_500 edge_db edge_db (league_request "l5")
           (VObj [("rows", VArr [VObj [("usersTeams", VNull)]])])
           [("usersTeams", VNull)] []).
  - reflexivity.
  - vm_compute. reflexivity.
  - reflexivity.
  - discriminate.
  - reflexivity.
Defined.

(** X10: when the first row is a non-empty object and some later row is
    [null] or [undefined], the projection [row.usersTeams] throws on it: the
    answer is 500, even if the first row alone would have given users. *)
Theorem getUsersFromLeague_null_row_500 {S} `{DocumentStore S}
    (s s' : S) (req result : value) (row0 : list (string * value)) (rest : list value) :
  let leagueId := read_field (read_field req "params") "leagueId" in
  let options := VObj [("parameters", VObj [("leagueId", leagueId)])] in
  truthy leagueId = true ->
  cluster_query (VStr users_query) options s = (Returned result, s') ->
  prop result "rows" = Returned (VArr (VObj row0 :: rest)) ->
  row0 <> [] ->
  existsb nullish rest = true ->
  serve GetUsersFromLeague req s
  = (Returned tt,
     mkWorld s' [(CQuery (VStr users_query) options, Returned result)]
       [("Error occured while retrieving users from a league:", type_error)]
       (mkResponse 500
          (Some (VObj [("error", VStr "Error occured while retrieving users from a league")])))).
Proof.
  intros leagueId options Ht Hquery Hrows Hrow0 Hnull.
  rewrite (getUsersFromLeague_cases s req). cbv zeta. fold leagueId.
  rewrite (js_not_truthy _ Ht).
  change (league_options leagueId) with options. rewrite Hquery.
  rewrite (has_first_row_object _ _ _ Hrows Hrow0).
  unfold users_of. rewrite Hrows. cbn [obind array_map].
  rewrite mapO_prop_cases. cbn [forallb nullish negb andb].
  assert (forallb (fun row => negb (nullish row)) rest = false) as ->; [|done].
  clear -Hnull. induction rest as [|row rest IH]; [done|].
  cbn [existsb forallb] in *. destruct (nullish row); [done|]. by apply IH.
Qed.

Lemma getUsersFromLeague_null_row_500_witness :
  let options := VObj [("parameters", VObj [("leagueId", VStr "l1")])] in
  let result := VObj [("rows", VArr [VObj [("usersTeams", VObj alice_bob)]; VNull])] in
  @serve _ scripted GetUsersFromLeague (league_request "l1") (Returned result)
  = (Returned tt,
     mkWorld (Returned result) [(CQuery (VStr users_query) options, Returned result)]
       [("Error occured while retrieving users from a league:", type_error)]
       (mkResponse 500
          (Some (VObj [("error", VStr "Error occured while retrieving users from a league")])))).
Proof.
  intros options result.
  apply (@getUsersFromLeague_null_row_500 _ scripted (Returned result) (Returned result)
           (league_request "l1") result [("usersTeams", VObj alice_bob)] [VNull]).
  - reflexivity.
  - reflexivity.
  - reflexivity.
  - discriminate.
  - reflexivity.
Defined.

(** X11: [flat()] splices an array found under [usersTeams]: when the first
    row's [usersTeams] is the empty array, the users are taken from the
    second row's mapping, not from the first row. *)
Theorem getUsersFromLeague_empty_array_uses_next_row {S} `{DocumentStore S}
    (s s' : S) (req result : value)
    (row0 row1 teams : list (string * value)) (rest : list value) :
  let leagueId := read_field (read_field req "params") "leagueId" in
  let options := VObj [("parameters", VObj [("leagueId", leagueId)])] in
  truthy leagueId = true ->
  cluster_query (VStr users_query) options s = (Returned result, s') ->
  prop result "rows" = Returned (VArr (VObj row0 :: VObj row1 :: rest)) ->
  lookup_field "usersTeams" row0 = Some (VArr []) ->
  lookup_field "usersTeams" row1 = Some (VObj teams) ->
  forallb (fun row => negb (nullish row)) rest = true ->
  serve GetUsersFromLeague req s
  = (Returned tt,
     mkWorld s' [(CQuery (VStr users_query) options, Returned result)] []
       (mkResponse 200
          (Some (VObj [("users", VArr (map (fun v => VObj [("name", v)]) (map snd teams)))])))).
Proof.
  intros leagueId options Ht Hquery Hrows Hteams0 Hteams1 Hrest.
  rewrite (getUsersFromLeague_cases s req). cbv zeta. fold leagueId.
  rewrite (js_not_truthy _ Ht).
  change (league_options leagueId) with options. rewrite Hquery.
  rewrite (has_first_row_object _ _ _ Hrows) by (intros ->; discriminate).
  unfold users_of. rewrite Hrows. cbn [obind array_map].
  rewrite mapO_prop_cases. cbn [forallb nullish negb andb map]. rewrite Hrest.
  cbn [obind read_field]. rewrite Hteams0, Hteams1. reflexivity.
Qed.

Lemma getUsersFromLeague_empty_array_uses_next_row_witness :
  let options := VObj [("parameters", VObj [("leagueId", VStr "x1")])] in
  let result := VObj [("rows", VArr [VObj [("usersTeams", VArr [])];
                                     VObj [("usersTeams", VObj [("u8", VStr "Eve")])]])] in
  serve GetUsersFromLeague (league_request "x1") edge_db
  = (Returned tt,
     mkWorld edge_db [(CQuery (VStr users_query) options, Returned result)] []
       (mkResponse 200
          (Some (VObj [("users", VArr (map (fun v => VObj [("name", v)])
                                         (map snd [("u8", VStr "Eve")])))])))).
Proof.
  apply (getUsersFromLeague_empty_array_uses_next_row edge_db edge_db (league_request "x1")
           (VObj [("rows", VArr [VObj [("usersTeams", VArr [])];
                                 VObj [("usersTeams", VObj [("u8", VStr "Eve")])]])])
           [("usersTeams", VArr [])] [("usersTeams", VObj [("u8", VStr "Eve")])]
           [("u8", VStr "Eve")] []).
  - reflexivity.
  - vm_compute. reflexivity.
  - reflexivity.
  - reflexivity.
  - reflexivity.
  - reflexivity.
Defined.

(** ** Update team name: validation, the calls made, and the store *)

(** X12: [updateTeamName] reaches the store exactly when [teamId] (from the
    route) and [name] (from the body) are both non-empty strings; otherwise
    no call is made. *)
Theorem updateTeamName_reaches_store_iff {S} `{DocumentStore S}
    (s : S) (req reqBody : value) :
  prop req "body" = Returned reqBody ->
  let teamId := read_field (read_field req "params") "teamId" in
  let name := read_field reqBody "name" in
  trace (serve UpdateTeamName req s).2 <> []
  <-> truthy teamId && truthy name && is_string teamId && is_string name = true.
Proof.
  intros Hbody teamId name.
  destruct (truthy teamId && truthy name && is_string teamId && is_string name) eqn:Hvalid.
  - destruct (updateTeamName_accepted_reads req _ Hbody Hvalid)
      as (t & n & _ & _ & Nt & Nn & Hparams & Hteam & Hname).
    rewrite (updateTeamName_valid s req _ _ t n Hbody Hparams Hteam Hname Nt Nn).
    split; [done|]. intros _.
    destruct (collection_get _ s) as [[result|err] s1]; [|done].
    destruct (team_missing result) as [[|]|err]; [done| |done].
    destruct (obind _ _) as [team|err]; [|done].
    by destruct (collection_replace _ team s1) as [[ack|err] s2].
  - destruct (updateTeamName_rejected s req _ Hbody Hvalid) as [msg ->].
    cbn. split; [done|discriminate].
Qed.

Lemma updateTeamName_reaches_store_iff_witness :
  let req := request (VObj [("teamId", VStr "t1")]) (VObj [("name", VNum 7)]) in
  trace (serve UpdateTeamName req sample_db).2 <> []
  <-> truthy (VStr "t1") && truthy (VNum 7) && is_string (VStr "t1") && is_string (VNum 7)
      = true.
Proof.
  apply (updateTeamName_reaches_store_iff sample_db
           (request (VObj [("teamId", VStr "t1")]) (VObj [("name", VNum 7)]))
           (VObj [("name", VNum 7)])).
  reflexivity.
Defined.

(** X13: whatever the request and the store, [updateTeamName] makes no
    call, or one [get], or one [get] that returned followed by one
    [replace]; both calls use the route's [teamId], and what is written is
    the fetched content with [name] assigned. *)
Theorem updateTeamName_call_shape {S} `{DocumentStore S} (s : S) (req : value) :
  let teamId := read_field (read_field req "params") "teamId" in
  let name := read_field (read_field req "body") "name" in
  let calls := trace (serve UpdateTeamName req s).2 in
  calls = []
  \/ (exists fetched, calls = [(CGet teamId, fetched)])
  \/ (exists result content team written,
        calls = [(CGet teamId, Returned result); (CReplace teamId team, written)]
        /\ prop result "content" = Returned content
        /\ assign_prop content "name" name = Returned team).
Proof.
  intros teamId name calls. unfold calls.
  destruct (nullish req) eqn:Hreq.
  { rewrite (updateTeamName_no_request s req Hreq). by left. }
  pose proof (prop_not_nullish _ "body" Hreq) as Hbody.
  destruct (truthy teamId && truthy name && is_string teamId && is_string name) eqn:Hvalid.
  - destruct (updateTeamName_accepted_reads req _ Hbody Hvalid)
      as (t & n & Et & En & Nt & Nn & Hparams & Hteam & Hname).
    fold teamId in Et. fold name in En. rewrite Et, En.
    rewrite (updateTeamName_valid s req _ _ t n Hbody Hparams Hteam Hname Nt Nn).
    destruct (collection_get _ s) as [[result|err] s1]; [|right; left; by eexists].
    destruct (team_missing result) as [[|]|err]; [| |]; try (right; left; by eexists).
    destruct (prop result "content") as [content|err] eqn:Hcontent;
      [|right; left; by eexists].
    cbn [obind].
    destruct (assign_prop content "name" (VStr n)) as [team|err] eqn:Hassign;
      [|right; left; by eexists].
    right; right. exists result, content, team.
    destruct (collection_replace _ team s1) as [[ack|err] s2]; by eexists.
  - destruct (updateTeamName_rejected s req _ Hbody Hvalid) as [msg ->]. by left.
Qed.

(** X14: when the fetched content is a primitive (a string, a number or
    [true]), the assignment [team.name = name] throws in the module's
    strict code: the answer is 500 and nothing is written. *)
Theorem updateTeamName_primitive_content_500 {S} `{DocumentStore S}
    (s s1 : S) (req reqBody reqParams result content : value) (teamId name : string) :
  prop req "body" = Returned reqBody ->
  prop req "params" = Returned reqParams ->
  prop reqParams "teamId" = Returned (VStr teamId) ->
  prop reqBody "name" = Returned (VStr name) ->
  teamId <> "" -> name <> "" ->
  collection_get (VStr teamId) s = (Returned result, s1) ->
  prop result "content" = Returned content ->
  truthy content = true ->
  typeof content <> "object" ->
  serve UpdateTeamName req s
  = (Returned tt,
     mkWorld s1 [(CGet (VStr teamId), Returned result)]
       [("An error occured while updating team: ", type_error)]
       (mkResponse 500 (Some (VObj [("error", VStr "An error occured while updating team")])))).
Proof.
  intros Hbody Hparams Hteam Hname Nt Nn Hget Hcontent Ht Hprim.
  rewrite (updateTeamName_valid s req reqBody reqParams teamId name) by done.
  rewrite Hget, (team_missing_content _ _ Hcontent Ht), Hcontent. cbn [obind].
  by destruct content.
Qed.

Lemma updateTeamName_primitive_content_500_witness :
  let db : gmap string value := <["t5" := VStr "not a team"]> sample_db in
  serve UpdateTeamName (team_request "t5" "NewName") db
  = (Returned tt,
     mkWorld db [(CGet (VStr "t5"), Returned (VObj [("content", VStr "not a team")]))]
       [("An error occured while updating team: ", type_error)]
       (mkResponse 500 (Some (VObj [("error", VStr "An error occured while updating team")])))).
Proof.
  intros db.
  apply (updateTeamName_primitive_content_500 db db (team_request "t5" "NewName")
           (VObj [("name", VStr "NewName")]) (VObj [("teamId", VStr "t5")])
           (VObj [("content", VStr "not a team")]) (VStr "not a team") "t5" "NewName");
    try reflexivity; try discriminate.
Defined.

(** ** On the reference store *)

Lemma set_field_overwrite k v1 v2 fields :
  set_field k v2 (set_field k v1 fields) = set_field k v2 fields.
Proof.
  induction fields as [|[k' v'] rest IH]; simpl.
  - by rewrite String.eqb_refl.
  - destruct (String.eqb k k') eqn:E; simpl; rewrite E; [done | by rewrite IH].
Qed.

(** A rename of a stored team object, on the reference store. *)
Lemma updateTeamName_stored_object (db : gmap string value) (teamId name : string)
    (fields : list (string * value)) :
  db !! teamId = Some (VObj fields) ->
  teamId <> "" -> name <> "" ->
  let team := VObj (set_field "name" (VStr name) fields) in
  serve UpdateTeamName (team_request teamId name) db
  = answered (<[teamId := team]> db)
      [(CGet (VStr teamId), Returned (VObj [("content", VObj fields)]));
       (CReplace (VStr teamId) team, Returned mutation_ack)] []
      200 (message_body "Team name updated successfully").
Proof.
  intros Hdoc Nt Nn team.
  rewrite (updateTeamName_valid db _ (VObj [("name", VStr name)])
             (VObj [("teamId", VStr teamId)]) teamId name) by done.
  cbn [collection_get collection_replace kv_store]. rewrite Hdoc.
  change (team_missing (VObj [("content", VObj fields)])) with (Returned (A := bool) false).
  change (prop (VObj [("content", VObj fields)]) "content") with (Returned (VObj fields)).
  cbn [obind assign_prop]. by rewrite Hdoc.
Qed.

(** X15: on the reference store, two renames of the same team in a row
    leave the store as the second rename alone would: the last name wins
    and the other fields are those of the original document. *)
Theorem updateTeamName_last_write_wins (db : gmap string value)
    (teamId first second : string) (fields : list (string * value)) :
  db !! teamId = Some (VObj fields) ->
  teamId <> "" -> first <> "" -> second <> "" ->
  let once := serve UpdateTeamName (team_request teamId first) db in
  let twice := serve UpdateTeamName (team_request teamId second) (store once.2) in
  statusCode (res twice.2) = 200
  /\ store twice.2 = store (serve UpdateTeamName (team_request teamId second) db).2
  /\ store twice.2 !! teamId = Some (VObj (set_field "name" (VStr second) fields)).
Proof.
  intros Hdoc Nt N1 N2 once twice. unfold twice, once.
  rewrite (updateTeamName_stored_object db teamId first fields) by done.
  rewrite (updateTeamName_stored_object db teamId second fields) by done.
  cbn [answered snd store].
  rewrite (updateTeamName_stored_object _ teamId second
             (set_field "name" (VStr first) fields)) by (done || apply lookup_insert_eq).
  cbn [answered snd store res statusCode].
  rewrite set_field_overwrite, insert_insert_eq, lookup_insert_eq. done.
Qed.

Lemma updateTeamName_last_write_wins_witness :
  let once := serve UpdateTeamName (team_request "t1" "First") sample_db in
  let twice := serve UpdateTeamName (team_request "t1" "Second") (store once.2) in
  statusCode (res twice.2) = 200
  /\ store twice.2 = store (serve UpdateTeamName (team_request "t1" "Second") sample_db).2
  /\ store twice.2 !! "t1"
     = Some (VObj (set_field "name" (VStr "Second")
                     [("id", VStr "t1"); ("type", VStr "mpg_team"); ("name", VStr "OldName");
                      ("budget", VNum 500)])).
Proof.
  apply (updateTeamName_last_write_wins sample_db "t1" "First" "Second"
           [("id", VStr "t1"); ("type", VStr "mpg_team"); ("name", VStr "OldName");
            ("budget", VNum 500)]).
  - vm_compute. reflexivity.
  - discriminate.
  - discriminate.
  - discriminate.
Defined.

(** X16: on the reference store, [updateTeamName] leaves every document
    other than the one under the route's [teamId] as it was, whatever the
    request. *)
Theorem updateTeamName_other_documents_untouched (db : gmap string value)
    (req : value) (k : string) :
  read_field (read_field req "params") "teamId" <> VStr k ->
  store (serve UpdateTeamName req db).2 !! k = db !! k.
Proof.
  intros Hother.
  destruct (nullish req) eqn:Hreq.
  { by rewrite (updateTeamName_no_request db req Hreq). }
  pose proof (prop_not_nullish _ "body" Hreq) as Hbody.
  destruct (truthy (read_field (read_field req "params") "teamId")
            && truthy (read_field (read_field req "body") "name")
            && is_string (read_field (read_field req "params") "teamId")
            && is_string (read_field (read_field req "body") "name")) eqn:Hvalid.
  - destruct (updateTeamName_accepted_reads req _ Hbody Hvalid)
      as (t & n & Et & _ & Nt & Nn & Hparams & Hteam & Hname).
    rewrite (updateTeamName_valid db req _ _ t n Hbody Hparams Hteam Hname Nt Nn).
    assert (t <> k) as Htk by (intros ->; by rewrite Et in Hother).
    cbn [collection_get collection_replace kv_store].
    destruct (db !! t) as [doc|] eqn:Hdoc; [|done].
    destruct (team_missing _) as [[|]|err]; [done| |done].
    destruct (obind _ _) as [team|err]; [|done].
    rewrite Hdoc. cbn. by rewrite lookup_insert_ne.
  - by destruct (updateTeamName_rejected db req _ Hbody Hvalid) as [msg ->].
Qed.

Lemma updateTeamName_other_documents_untouched_witness :
  store (serve UpdateTeamName (team_request "t1" "NewName") sample_db).2 !! "l1"
  = sample_db !! "l1".
Proof.
  apply (updateTeamName_other_documents_untouched sample_db
           (team_request "t1" "NewName") "l1").
  discriminate.
Defined.

(** What [createLeague] leaves in the reference store. *)
Lemma createLeague_store_cases (db : gmap string value) (req : value) :
  let served := serve CreateLeague req db in
  (store served.2 = db /\ statusCode (res served.2) <> 200)
  \/ (exists id league,
        read_field (read_field req "body") "id" = VStr id
        /\ db !! id = None
        /\ store served.2 = <[id := league]> db
        /\ statusCode (res served.2) = 200
        /\ serve CreateLeague req (<[id := league]> db)
           = handler_failed CreateLeague (<[id := league]> db)
               [(CInsert (VStr id) league, Thrown document_exists)] document_exists).
Proof.
  intros served. unfold served.
  destruct (nullish req) eqn:Hreq.
  { rewrite (createLeague_no_request db req Hreq). left. by split. }
  pose proof (prop_not_nullish _ "body" Hreq) as Hbody.
  rewrite (createLeague_cases db req _ Hbody). cbv zeta.
  destruct (js_not (read_field req "body")) eqn:E1; [left; by split|].
  destruct (js_not (js_or _ _)) eqn:E2; [left; by split|].
  destruct (is_string (read_field (read_field req "body") "id")) eqn:Sid;
    [|left; by split].
  destruct (negb true || _ || _ || _) eqn:E3; [left; by split|].
  apply is_string_inv in Sid as [id Eid]. rewrite Eid in *.
  cbn [collection_insert kv_store].
  destruct (db !! id) eqn:Hdoc; [left; by split|].
  right. eexists id, _. split_and!; try done.
  rewrite (createLeague_cases _ req _ Hbody). cbv zeta.
  rewrite E1, Eid, E2, is_string_VStr, E3.
  cbn [collection_insert kv_store]. by rewrite lookup_insert_eq.
Qed.

(** X17: on the reference store, [createLeague] never changes or removes a
    document that is already stored, whatever the request. *)
Theorem createLeague_keeps_existing_documents (db : gmap string value)
    (req : value) (k : string) (doc : value) :
  db !! k = Some doc ->
  store (serve CreateLeague req db).2 !! k = Some doc.
Proof.
  intros Hdoc.
  destruct (createLeague_store_cases db req)
    as [[-> _]|(id & league & _ & Hfree & -> & _)]; [done|].
  rewrite lookup_insert_ne; [done|]. intros ->. by rewrite Hfree in Hdoc.
Qed.

Lemma createLeague_keeps_existing_documents_witness :
  store (serve CreateLeague
           (request (VObj [])
              (VObj [("id", VStr "l1"); ("name", VStr "Again"); ("description", VStr "taken");
                     ("adminId", VStr "a1")]))
           sample_db).2 !! "l1"
  = Some sample_league.
Proof.
  apply (createLeague_keeps_existing_documents sample_db _ "l1" sample_league).
  vm_compute. reflexivity.
Defined.

(** X18: on the reference store, a create-league request answered 200 and
    sent again is answered 500 (the key is taken) and leaves the store as
    the first call left it. *)
Theorem createLeague_repeated_500 (db : gmap string value) (req : value) :
  let once := serve CreateLeague req db in
  statusCode (res once.2) = 200 ->
  let twice := serve CreateLeague req (store once.2) in
  statusCode (res twice.2) = 500 /\ store twice.2 = store once.2.
Proof.
  intros once H200 twice. unfold twice, once in *.
  destruct (createLeague_store_cases db req)
    as [[_ Hnot]|(id & league & _ & _ & -> & _ & ->)]; [done|].
  by split.
Qed.

Lemma createLeague_repeated_500_witness :
  let req := request (VObj [])
               (VObj [("id", VStr "l2"); ("name", VStr "Ligue 2");
                      ("description", VStr "second"); ("adminId", VStr "a1")]) in
  let once := serve CreateLeague req sample_db in
  let twice := serve CreateLeague req (store once.2) in
  statusCode (res twice.2) = 500 /\ store twice.2 = store once.2.
Proof.
  apply (createLeague_repeated_500 sample_db
           (request (VObj [])
              (VObj [("id", VStr "l2"); ("name", VStr "Ligue 2");
                     ("description", VStr "second"); ("adminId", VStr "a1")]))).
  vm_compute. reflexivity.
Defined.

(** X19: the document [updateTeamName] writes back has the keys of the
    fetched one in the same order when that one has a [name]; otherwise
    [name] is added as its last key. *)
Theorem updateTeamName_keeps_key_order {S} `{DocumentStore S}
    (s s1 : S) (req reqBody reqParams result : value) (teamId name : string)
    (fields : list (string * value)) :
  prop req "body" = Returned reqBody ->
  prop req "params" = Returned reqParams ->
  prop reqParams "teamId" = Returned (VStr teamId) ->
  prop reqBody "name" = Returned (VStr name) ->
  teamId <> "" -> name <> "" ->
  collection_get (VStr teamId) s = (Returned result, s1) ->
  prop result "content" = Returned (VObj fields) ->
  exists written completion,
    trace (serve UpdateTeamName req s).2
    = [(CGet (VStr teamId), Returned result);
       (CReplace (VStr teamId) (VObj written), completion)]
    /\ map fst written
       = match lookup_field "name" fields with
         | Some _ => map fst fields
         | None => (map fst fields ++ ["name"])%list
         end.
Proof.
  intros Hbody Hparams Hteam Hname Nt Nn Hget Hcontent.
  rewrite (updateTeamName_valid s req reqBody reqParams teamId name) by done.
  rewrite Hget, (team_missing_content _ _ Hcontent eq_refl), Hcontent.
  cbn [obind assign_prop].
  exists (set_field "name" (VStr name) fields).
  destruct (collection_replace _ _ s1) as [[ack|err] s2]; eexists;
    (split; [reflexivity|apply set_field_keys]).
Qed.

Lemma updateTeamName_keeps_key_order_witness :
  exists written completion,
    trace (serve UpdateTeamName (team_request "l0" "Named") crowded_db).2
    = [(CGet (VStr "l0"), Returned (VObj [("content", bare_league)]));
       (CReplace (VStr "l0") (VObj written), completion)]
    /\ map fst written
       = match lookup_field "name" [("id", VStr "l0"); ("type", VStr "mpg_league")] with
         | Some _ => map fst [("id", VStr "l0"); ("type", VStr "mpg_league")]
         | None => (map fst [("id", VStr "l0"); ("type", VStr "mpg_league")] ++ ["name"])%list
         end.
Proof.
  apply (updateTeamName_keeps_key_order crowded_db crowded_db
           (team_request "l0" "Named") (VObj [("name", VStr "Named")])
           (VObj [("teamId", VStr "l0")]) (VObj [("content", bare_league)])
           "l0" "Named" [("id", VStr "l0"); ("type", VStr "mpg_league")]);
    try reflexivity; try discriminate.
Defined.
